(** * A shallow embedding of [IOB/layers.py]

    The file defines three Keras layers: [GraphOperator] (powers of an
    adjacency matrix), [Adjacency] (learned adjacencies) and [GNN] (graph
    convolution).  The embedding follows the Python text statement by
    statement.  TensorFlow is modelled in its eager mode with fully known
    shapes:

    - a tensor is a shape and its row-major data, over one scalar type;
    - scalar arithmetic, the order in which a reduction adds its terms
      and the truth value of a non-scalar tensor are left abstract
      ([Numeric]), so that every theorem holds for any floating-point
      arithmetic;
    - a tensor is immutable: [tf.Tensor] has no [__setitem__], and the
      statement [t[i, j] = v] raises [TypeError];
    - [tf.matmul(a, b)] has two required arguments: a call with one
      raises [TypeError];
    - [tf.squeeze(t)] without [axis] removes every dimension of size 1;
    - the Python exceptions are values of [exn];
    - a layer object is a dictionary of attributes in a heap, and a
      method runs in a state-and-exception monad over the heap and the
      standard output. *)

From stdpp Require Import gmap strings list fin_maps.
From Stdlib Require Import ZArith Lia.

(** ** Exceptions and results *)

Inductive exn :=
| AssertionError
| AttributeError
| IndexError
| TypeError
| ValueError
| InvalidArgumentError.

Inductive result (A : Type) :=
| Ok (a : A)
| Raise (e : exn).
Arguments Ok {A} a.
Arguments Raise {A} e.

#[global] Instance exn_eq_dec : EqDecision exn.
Proof. solve_decision. Defined.

#[global] Instance result_ret : MRet result := @Ok.
#[global] Instance result_bind : MBind result :=
  λ A B f r, match r with Ok a => f a | Raise e => Raise e end.

Definition not_assertion (e : exn) : Prop := e ≠ AssertionError.

Definition is_ok {A} (r : result A) : bool :=
  match r with Ok _ => true | Raise _ => false end.

(** ** Plain Python operations on lists and assertions *)

(** [l[i]] for a non-negative [i]. *)
Definition py_index {A} (l : list A) (i : nat) : result A :=
  match l !! i with Some x => Ok x | None => Raise IndexError end.

(** [l[-1]]. *)
Definition py_last {A} (l : list A) : result A :=
  match last l with Some x => Ok x | None => Raise IndexError end.

(** [l[:-1]]. *)
Definition py_init {A} (l : list A) : list A := removelast l.

(** [assert cond, msg]: the message is evaluated only when the condition
    fails, and an exception raised while building it replaces the
    assertion error. *)
Definition py_assert (cond : bool) (msg : result unit) : result unit :=
  if cond then Ok tt else (msg;; Raise AssertionError).

(** A [for .. in enumerate(l)] loop threading the loop state. *)
Fixpoint for_enumerate {A St} (k : nat) (l : list A)
    (body : nat → A → St → result St) (st : St) : result St :=
  match l with
  | [] => Ok st
  | x :: l' => st' ← body k x st; for_enumerate (S k) l' body st'
  end.

(** ** Scalars *)

Class Numeric := {
  num : Type;
  (** conversion of a Python integer constant to the tensor's dtype *)
  of_int : Z → num;
  num_add : num → num → num;
  num_sub : num → num → num;
  num_mul : num → num → num;
  num_sqrt : num → num;
  (** [max(x, 0)] *)
  num_relu : num → num;
  (** [==] on two scalars *)
  num_eqb : num → num → bool;
  (** the sum of the terms of a reduction, in the order the kernel adds
      them *)
  reduce_sum : list num → num;
  (** [bool(t)] of a non-scalar boolean tensor, given its shape and
      entries; [None] is the [ValueError] of an ambiguous truth value *)
  array_truth : list nat → list bool → option bool;
}.

(** ** Tensors *)

Section Tensors.
Context `{Numeric}.

Record tensor := Tensor { shape : list nat; data : list num }.

Definition numel (s : list nat) : nat := foldr Nat.mul 1 s.

Definition wf (t : tensor) : Prop := length (data t) = numel (shape t).

Definition scalar (x : num) : tensor := Tensor [] [x].

(** [t.shape[i]] *)
Definition shape_at (t : tensor) (i : nat) : result nat :=
  py_index (shape t) i.

(** All the multi-indices of a shape, in row-major order. *)
Fixpoint indices (s : list nat) : list (list nat) :=
  match s with
  | [] => [[]]
  | d :: s' => flat_map (λ i, map (cons i) (indices s')) (seq 0 d)
  end.

(** Position of a multi-index in the row-major data. *)
Fixpoint offset (s idx : list nat) : nat :=
  match s, idx with
  | _ :: s', i :: idx' => i * numel s' + offset s' idx'
  | _, _ => 0
  end.

Definition tget (t : tensor) (idx : list nat) : num :=
  default (of_int 0) (data t !! offset (shape t) idx).

(** Broadcasting: an index of the broadcast shape is cut to the rank of
    the operand, and a dimension of size 1 is read at 0. *)
Definition bidx (s idx : list nat) : list nat :=
  zip_with (λ d i, if d =? 1 then 0 else i) s
           (drop (length idx - length s) idx).

Definition bget (t : tensor) (idx : list nat) : num :=
  tget t (bidx (shape t) idx).

(** Broadcast of two shapes, both given innermost dimension first. *)
Fixpoint bshape_rev (a b : list nat) : option (list nat) :=
  match a, b with
  | [], _ => Some b
  | _, [] => Some a
  | x :: a', y :: b' =>
      if x =? y then cons x <$> bshape_rev a' b'
      else if x =? 1 then cons y <$> bshape_rev a' b'
      else if y =? 1 then cons x <$> bshape_rev a' b'
      else None
  end.

Definition broadcast_shapes (a b : list nat) : option (list nat) :=
  reverse <$> bshape_rev (reverse a) (reverse b).

(** An element-wise binary operation with broadcasting. *)
Definition broadcast2 (f : num → num → num) (a b : tensor)
    : result tensor :=
  match broadcast_shapes (shape a) (shape b) with
  | None => Raise InvalidArgumentError
  | Some s =>
      Ok (Tensor s (map (λ idx, f (bget a idx) (bget b idx)) (indices s)))
  end.

(** [tf.math.add], [a - b], [a * b] *)
Definition tf_add := broadcast2 num_add.
Definition tf_sub := broadcast2 num_sub.
Definition tf_mul := broadcast2 num_mul.

(** [tf.nn.relu] *)
Definition tf_relu (t : tensor) : tensor :=
  Tensor (shape t) (map num_relu (data t)).

(** [tf.squeeze] without [axis]: every dimension of size 1 goes. *)
Definition tf_squeeze (t : tensor) : tensor :=
  Tensor (filter (λ d, d ≠ 1) (shape t)) (data t).

(** [tf.eye(n)] *)
Definition tf_eye (n : nat) : tensor :=
  Tensor [n; n]
    (flat_map (λ i, map (λ j, if i =? j then of_int 1 else of_int 0)
                        (seq 0 n))
              (seq 0 n)).

(** [tf.zeros_like(t, dtype=tf.float32)] *)
Definition tf_zeros_like (t : tensor) : tensor :=
  Tensor (shape t) (replicate (numel (shape t)) (of_int 0)).

(** [tf.reshape(t, [-1])] *)
Definition tf_flatten (t : tensor) : tensor :=
  Tensor [length (data t)] (data t).

(** [tf.reshape(t, s)] for a fully given shape [s] *)
Definition tf_reshape (t : tensor) (s : list nat) : result tensor :=
  if numel s =? length (data t) then Ok (Tensor s (data t))
  else Raise InvalidArgumentError.

(** [tf.matmul(a, b)]: both ranks at least 2, equal inner dimensions,
    broadcast batch dimensions. *)
Definition tf_matmul (a b : tensor) : result tensor :=
  match reverse (shape a), reverse (shape b) with
  | k :: m :: ba, n :: k' :: bb =>
      if k =? k' then
        match bshape_rev ba bb with
        | Some bs =>
            Ok (Tensor (reverse bs ++ [m; n])
                  (flat_map (λ bi,
                     flat_map (λ i,
                       map (λ j,
                         reduce_sum
                           (map (λ l, num_mul (bget a (bi ++ [i; l]))
                                              (bget b (bi ++ [l; j])))
                                (seq 0 k)))
                         (seq 0 n))
                       (seq 0 m))
                     (indices (reverse bs))))
        | None => Raise InvalidArgumentError
        end
      else Raise InvalidArgumentError
  | _, _ => Raise InvalidArgumentError
  end.

(** The product of an [m]×[k] matrix by a [k]×[n] matrix, entry by
    entry. *)
Definition matprod (m k n : nat) (a b : tensor) : tensor :=
  Tensor [m; n]
    (flat_map (λ i,
       map (λ j,
         reduce_sum
           (map (λ l, num_mul (tget a [i; l]) (tget b [l; j])) (seq 0 k)))
         (seq 0 n))
       (seq 0 m)).

(** [tf.norm(t)]: the Euclidean norm of all the entries. *)
Definition tf_norm (t : tensor) : tensor :=
  scalar (num_sqrt (reduce_sum (map (λ x, num_mul x x) (data t)))).

(** The [i]-th slice along the first dimension, the rest of the shape
    being [s]. *)
Definition slice (s : list nat) (t : tensor) (i : nat) : tensor :=
  Tensor s (take (numel s) (drop (i * numel s) (data t))).

(** Iterating over a tensor yields its slices along the first
    dimension; a scalar tensor cannot be iterated. *)
Definition tf_iter (t : tensor) : result (list tensor) :=
  match shape t with
  | [] => Raise TypeError
  | d :: s => Ok (map (slice s t) (seq 0 d))
  end.

(** [t[i]] *)
Definition tf_getitem (t : tensor) (i : nat) : result tensor :=
  match shape t with
  | [] => Raise InvalidArgumentError
  | d :: s => if i <? d then Ok (slice s t i) else Raise InvalidArgumentError
  end.

(** [t[i, j] = v]: a tensor defines no [__setitem__], so the statement
    raises [TypeError] once its right-hand side has been evaluated. *)
Definition tf_setitem (t : tensor) (idx : list nat) (v : tensor)
    : result tensor :=
  Raise TypeError.

(** The test [if t == c:] for a Python integer constant [c]. *)
Definition tensor_eq_const (t : tensor) (c : Z) : result bool :=
  match shape t, data t with
  | [], [x] => Ok (num_eqb x (of_int c))
  | s, d =>
      match array_truth s (map (λ x, num_eqb x (of_int c)) d) with
      | Some b => Ok b
      | None => Raise ValueError
      end
  end.

(** [tf.matmul(x)] with its second positional argument missing: the
    argument is evaluated, then the call raises [TypeError]. *)
Definition tf_matmul_missing_b (x : tensor) : result tensor :=
  Raise TypeError.

End Tensors.

(** ** Objects, the heap and the monad of the methods *)

Section Runtime.
Context `{Numeric}.

(** The attribute values the three layers store: Python integers and
    weight tensors. *)
Inductive value :=
| VInt (z : Z)
| VTensor (t : tensor).

(** The world a method runs in: the objects, each a dictionary from
    attribute names to values, and the lines printed so far. *)
Record world := World {
  heap : gmap nat (gmap string value);
  stdout : list string;
}.

Definition M (A : Type) : Type := world → result A * world.

#[global] Instance M_ret : MRet M := λ A a w, (Ok a, w).
#[global] Instance M_bind : MBind M := λ A B f m w,
  match m w with
  | (Ok a, w') => f a w'
  | (Raise e, w') => (Raise e, w')
  end.

Definition lift {A} (r : result A) : M A := λ w, (r, w).

Definition raise {A} (e : exn) : M A := lift (Raise e).

(** [self.name] *)
Definition getattr (self : nat) (name : string) : M value := λ w,
  match heap w !! self ≫= (.!! name) with
  | Some v => (Ok v, w)
  | None => (Raise AttributeError, w)
  end.

(** [self.name = v] *)
Definition setattr (self : nat) (name : string) (v : value) : M unit :=
  λ w, (Ok tt,
        World (<[self := <[name := v]> (default ∅ (heap w !! self))]> (heap w))
              (stdout w)).

(** [print(line)] *)
Definition print (line : string) : M unit := λ w,
  (Ok tt, World (heap w) (stdout w ++ [line])).

(** [try: body except: handler], with a bare [except]. *)
Definition try_except {A} (body handler : M A) : M A := λ w,
  match body w with
  | (Ok a, w') => (Ok a, w')
  | (Raise _, w') => handler w'
  end.

(** A computation is [heap_pure] when its result depends on the heap
    only (not on what was printed) and it leaves the heap as it found
    it. *)
Definition heap_pure {A} (m : M A) : Prop :=
  ∀ w w', heap w = heap w' →
    fst (m w) = fst (m w') ∧ heap (snd (m w)) = heap w.

(** A computation is [world_blind] when it reads nothing of the world
    and leaves it as it is. *)
Definition world_blind {A} (m : M A) : Prop := ∃ r, ∀ w, m w = (r, w).

(** A computation is [world_keeping] when it leaves the whole world,
    output included, as it found it. *)
Definition world_keeping {A} (m : M A) : Prop := ∀ w, snd (m w) = w.

(** The exceptions a result, or a computation, can raise all satisfy
    [P]. *)
Definition raises_only {A} (P : exn → Prop) (r : result A) : Prop :=
  ∀ e, r = Raise e → P e.

Definition raises_in {A} (P : exn → Prop) (m : M A) : Prop :=
  ∀ w, raises_only P (fst (m w)).

(** A computation that returns in no world. *)
Definition never_returns {A} (m : M A) : Prop :=
  ∀ w, is_ok (fst (m w)) = false.

(** The world after [print("Error 87 layer")]. *)
Definition printed_error_87 (w : world) : world :=
  World (heap w) (stdout w ++ ["Error 87 layer"]).

(** The attribute [name] of the object at [self], if it has one. *)
Definition attr (w : world) (self : nat) (name : string) : option value :=
  heap w !! self ≫= (.!! name).

(** [v.shape] *)
Definition value_shape (v : value) : result (list nat) :=
  match v with
  | VTensor t => Ok (shape t)
  | VInt _ => Raise AttributeError
  end.

(** A value used as the operand of a tensor operation. *)
Definition as_tensor (v : value) : tensor :=
  match v with
  | VTensor t => t
  | VInt z => scalar (of_int z)
  end.

(** A value used as a dimension of a weight's shape. *)
Definition as_dim (v : value) : result nat :=
  match v with
  | VInt z => if (z <? 0)%Z then Raise ValueError else Ok (Z.to_nat z)
  | VTensor _ => Raise TypeError
  end.

(** [self.name = self.add_weight(shape=(self.dim, self.dim),
    initializer='random_normal', trainable=True, name=name)]; [init]
    gives the values drawn for the weight of that name and shape.  The
    model records the assignment the source writes; what the framework
    itself keeps on the layer object while it builds (its [built] flag,
    its lists of tracked variables and the like) is not part of the
    world, and no statement below is about it. *)
Definition add_weight (init : string → list nat → tensor)
    (self : nat) (dim name : string) : M unit :=
  d1 ← getattr self dim;
  d2 ← getattr self dim;
  r ← lift (d1 ← as_dim d1; d2 ← as_dim d2; Ok [d1; d2]);
  setattr self name (VTensor (init name r)).

End Runtime.

(** ** class Adjacency *)

Module Adjacency.
Section Methods.
Context `{Numeric}.

Definition __init__ (self : nat) (n_features max_nodes : Z) : M unit :=
  setattr self "max_nodes" (VInt max_nodes);;
  setattr self "n_features" (VInt n_features);;
  setattr self "input_units" (VInt (max_nodes * max_nodes)).

Definition build (init : string → list nat → tensor) (self : nat)
    : M unit :=
  add_weight init self "input_units" "w0_1";;
  add_weight init self "input_units" "w0_2";;
  add_weight init self "input_units" "w1_1";;
  add_weight init self "input_units" "w1_2";;
  add_weight init self "input_units" "w2_1";;
  add_weight init self "input_units" "w2_2".

(** The names of the weights [build] creates. *)
Definition weight_names : list string :=
  ["w0_1"; "w0_2"; "w1_1"; "w1_2"; "w2_1"; "w2_2"].

(** The body of the two loops of [_learn_adjacencies], for the entry
    [adj_ij] at row [ik] and column [jk]. *)
Definition learn_entry (node_vec : tensor) (ik jk : nat)
    (adj_ij new_adj : tensor) : result tensor :=
  is0 ← tensor_eq_const adj_ij 0;
  if is0 : bool then tf_setitem new_adj [ik; jk] (scalar (of_int 0))
  else
    is1 ← tensor_eq_const adj_ij 1;
    if is1 : bool then
      vi ← tf_getitem node_vec ik;
      vj ← tf_getitem node_vec jk;
      d ← tf_sub vi vj;
      tf_setitem new_adj [ik; jk] (tf_norm d)
    else Ok new_adj.

Definition _learn_adjacencies (adj node_vec : tensor) : result tensor :=
  let new_adj := tf_zeros_like adj in
  rows ← tf_iter adj;
  for_enumerate 0 rows (λ ik i new_adj,
    cols ← tf_iter i;
    for_enumerate 0 cols (λ jk j new_adj,
      learn_entry node_vec ik jk j new_adj) new_adj) new_adj.

(** The two assertions inside the [try] of [call].  They read
    [self.w0]; when an assertion fails its message is built, and
    [adj_list.shape], on a Python list, raises [AttributeError]. *)
Definition shape_check (self : nat) (adj_list : list tensor) : M unit :=
  a ← lift (py_index adj_list 0);
  r ← lift (shape_at a 0);
  w0 ← getattr self "w0";
  ws ← lift (value_shape w0);
  c ← lift (py_index ws 0);
  lift (py_assert (r =? c) (Raise AttributeError));;
  a ← lift (py_index adj_list 0);
  r ← lift (shape_at a 0);
  w0 ← getattr self "w0";
  ws ← lift (value_shape w0);
  c ← lift (py_index ws 1);
  lift (py_assert (r =? c) (Raise AttributeError)).

(** [x = tf.matmul(x * self.w); x = tf.nn.relu(x)] *)
Definition dense (self : nat) (x : tensor) (w : string) : M tensor :=
  wv ← getattr self w;
  p ← lift (tf_mul x (as_tensor wv));
  y ← lift (tf_matmul_missing_b p);
  mret (tf_relu y).

(** [call] from the squeeze on (after the [try]). *)
Definition forward (self : nat) (adj_list : list tensor)
    (node_vec : tensor) : M (list tensor) :=
  a0 ← lift (py_index adj_list 0);
  a1 ← lift (py_index adj_list 1);
  a2 ← lift (py_index adj_list 2);
  let adj_0 := tf_squeeze a0 in
  let adj_1 := tf_squeeze a1 in
  let adj_2 := tf_squeeze a2 in
  let node_vec := tf_squeeze node_vec in
  let shape := shape adj_0 in
  adj_0 ← lift (_learn_adjacencies adj_0 node_vec);
  adj_1 ← lift (_learn_adjacencies adj_1 node_vec);
  adj_2 ← lift (_learn_adjacencies adj_2 node_vec);
  let adj_0 := tf_flatten adj_0 in
  let adj_1 := tf_flatten adj_1 in
  let adj_2 := tf_flatten adj_2 in
  adj_0 ← dense self adj_0 "w0_1";
  adj_0 ← dense self adj_0 "w0_2";
  adj_1 ← dense self adj_1 "w1_1";
  adj_1 ← dense self adj_1 "w1_2";
  adj_2 ← dense self adj_2 "w2_1";
  adj_2 ← dense self adj_2 "w2_2";
  adj_0 ← lift (tf_reshape adj_0 shape);
  adj_1 ← lift (tf_reshape adj_1 shape);
  adj_2 ← lift (tf_reshape adj_2 shape);
  mret [adj_0; adj_1; adj_2].

Definition call (self : nat) (inputs : list tensor) : M (list tensor) :=
  let adj_list := py_init inputs in
  node_vec ← lift (py_last inputs);
  lift (py_assert (length adj_list =? 3) (Ok tt));;
  try_except (shape_check self adj_list) (print "Error 87 layer");;
  forward self adj_list node_vec.

(** [compute_output_shape]: [input_shape[:-1]], whatever the entries of
    the list are. *)
Definition compute_output_shape {A} (input_shape : list A) : list A :=
  py_init input_shape.

End Methods.
End Adjacency.

(** ** class GNN *)

Module GNN.
Section Methods.
Context `{Numeric}.

Definition __init__ (self : nat) (n_features n_nodes : Z) : M unit :=
  setattr self "n_features" (VInt n_features);;
  setattr self "n_nodes" (VInt n_nodes).

Definition build (init : string → list nat → tensor) (self : nat)
    : M unit :=
  add_weight init self "n_features" "w0";;
  add_weight init self "n_features" "w1";;
  add_weight init self "n_features" "w2".

Definition call (self : nat) (inputs : list tensor) : M tensor :=
  match inputs with
  | [X; learned_A0; learned_A1; learned_A2] =>
      ax ← lift (tf_matmul learned_A0 X);
      w0 ← getattr self "w0";
      product_1 ← lift (tf_matmul ax (as_tensor w0));
      ax ← lift (tf_matmul learned_A1 X);
      w1 ← getattr self "w1";
      product_2 ← lift (tf_matmul ax (as_tensor w1));
      ax ← lift (tf_matmul learned_A2 X);
      w2 ← getattr self "w2";
      product_3 ← lift (tf_matmul ax (as_tensor w2));
      s ← lift (tf_add product_1 product_2);
      X ← lift (tf_add s product_3);
      mret (tf_relu X)
  | _ => raise ValueError
  end.

(** [compute_output_shape]: [input_shape[0]] *)
Definition compute_output_shape {A} (input_shape : list A) : result A :=
  py_index input_shape 0.

End Methods.
End GNN.

(** ** class GraphOperator *)

Module GraphOperator.
Section Methods.
Context `{Numeric}.

Definition __init__ (self : nat) (power : Z) : M unit :=
  setattr self "power" (VInt power).

Definition call (self : nat) (adj : tensor) : M (list tensor) :=
  d1 ← lift (shape_at adj 1);
  d2 ← lift (shape_at adj 2);
  lift (py_assert (d1 =? d2) (Ok tt));;
  let adj := tf_squeeze adj in
  n ← lift (shape_at adj 0);
  let A0 := tf_eye n in
  A1 ← lift (tf_matmul adj adj);
  A2 ← lift (tf_matmul A1 adj);
  mret [A0; A1; A2].

(** [compute_output_shape]: [[input_shape, input_shape, input_shape]] *)
Definition compute_output_shape {A} (input_shape : A) : list A :=
  [input_shape; input_shape; input_shape].

End Methods.
End GraphOperator.

(** ** The pipeline *)

Section Pipeline.
Context `{Numeric}.

(** Modelled from the spec: the script that wires the three layers is not
    in the source file.  The overview gives the order: the raw adjacency
    goes through [GraphOperator], its three operators and the node
    features through [Adjacency], and the node features with the three
    learned adjacencies through [GNN]. *)
Definition pipeline (op adjacency gnn : nat) (adj node_vec : tensor)
    : M tensor :=
  ops ← GraphOperator.call op adj;
  learned ← Adjacency.call adjacency (ops ++ [node_vec]);
  GNN.call gnn (node_vec :: learned).

End Pipeline.

(** ** Integer scalars, to run the model on concrete inputs

    The arithmetic is exact, where floating-point arithmetic rounds, and
    the square root is the integer one, exact on perfect squares.  The
    truth value of a non-scalar tensor is [False] when it is empty, that
    of its entry when it has one, and ambiguous otherwise. *)

Definition Z_numeric : Numeric := {|
  num := Z;
  of_int := id;
  num_add := Z.add;
  num_sub := Z.sub;
  num_mul := Z.mul;
  num_sqrt := Z.sqrt;
  num_relu := Z.max 0;
  num_eqb := Z.eqb;
  reduce_sum := foldr Z.add 0%Z;
  array_truth := λ _ bs,
    match bs with [] => Some false | [b] => Some b | _ => None end;
|}.

(** A tensor of integers. *)
Definition ztensor (s : list nat) (d : list Z) : @tensor Z_numeric :=
  @Tensor Z_numeric s d.

(** The world with no object and nothing printed. *)
Definition empty_world `{Numeric} : world := World ∅ [].

(** An initializer that fills a weight with a constant. *)
Definition const_init (c : Z) (name : string) (s : list nat)
    : @tensor Z_numeric :=
  ztensor s (replicate (numel s) c).

(** An [Adjacency] layer at address 1, constructed and built for
    [max_nodes] nodes, every weight filled with 1. *)
Definition adjacency_world (max_nodes : Z) : @world Z_numeric :=
  snd ((Adjacency.__init__ 1 50 max_nodes;;
        Adjacency.build (const_init 1) 1) empty_world).

(** A [GNN] layer at address 2, constructed and built for [n_features]
    features, every weight filled with 1. *)
Definition gnn_world (n_features : Z) : @world Z_numeric :=
  snd ((GNN.__init__ 2 n_features 50;;
        GNN.build (const_init 1) 2) empty_world).

(** An initializer that fills [w1] with -1 and every other weight with
    1, and a [GNN] layer at address 2 built with it for 2 features. *)
Definition signed_init (name : string) (s : list nat)
    : @tensor Z_numeric :=
  ztensor s (replicate (numel s)
               (if String.eqb name "w1" then (-1)%Z else 1%Z)).

Definition signed_gnn_world : @world Z_numeric :=
  snd ((GNN.__init__ 2 2 50;;
        GNN.build signed_init 2) empty_world).

(** Node features with negative components for the three nodes of the
    path. *)
Definition signed_features : @tensor Z_numeric :=
  ztensor [3; 2] [1; -2;  -3; 1;  2; 2]%Z.

(** The path on three nodes, as a batch of one matrix, its three
    operators as [GraphOperator.call] returns them, and features of two
    components for its nodes. *)
Definition path3 : @tensor Z_numeric :=
  ztensor [1; 3; 3] [0; 1; 0;  1; 0; 1;  0; 1; 0]%Z.

Definition path3_ops : list (@tensor Z_numeric) :=
  [ ztensor [3; 3] [1; 0; 0;  0; 1; 0;  0; 0; 1]%Z;
    ztensor [3; 3] [1; 0; 1;  0; 2; 0;  1; 0; 1]%Z;
    ztensor [3; 3] [0; 2; 0;  2; 0; 2;  0; 2; 0]%Z ].

Definition path3_features : @tensor Z_numeric :=
  ztensor [3; 2] [0; 0;  3; 4;  6; 8]%Z.

(** * Properties *)

(** ** The monad: what a forward pass may read and write *)

Section Frame.
Context `{Numeric}.

Lemma heap_pure_ret {A} (a : A) : heap_pure (mret a).
Proof. intros w w' _. split; reflexivity. Qed.

Lemma heap_pure_lift {A} (r : result A) : heap_pure (lift r).
Proof. intros w w' _. split; reflexivity. Qed.

Lemma heap_pure_raise {A} (e : exn) : heap_pure (@raise _ A e).
Proof. apply heap_pure_lift. Qed.

Lemma heap_pure_getattr self name : heap_pure (getattr self name).
Proof.
  intros w w' Hw. unfold getattr. rewrite <- Hw.
  destruct (heap w !! self ≫= _); split; reflexivity.
Qed.

Lemma heap_pure_print line : heap_pure (print line).
Proof. intros w w' _. split; reflexivity. Qed.

Lemma heap_pure_bind {A B} (m : M A) (f : A → M B) :
  heap_pure m → (∀ a, heap_pure (f a)) → heap_pure (m ≫= f).
Proof.
  intros Hm Hf w w' Hw. unfold mbind, M_bind.
  destruct (Hm w w' Hw) as [Hr Hh].
  destruct (Hm w' w (eq_sym Hw)) as [_ Hh'].
  destruct (m w) as [[a|e] w1], (m w') as [[a'|e'] w1'];
    simpl in *; try discriminate.
  - injection Hr as <-.
    destruct (Hf a w1 w1') as [Hr1 Hh1]; [congruence|].
    split; [exact Hr1 | congruence].
  - injection Hr as <-. split; [reflexivity | congruence].
Qed.

Lemma heap_pure_try {A} (body handler : M A) :
  heap_pure body → heap_pure handler → heap_pure (try_except body handler).
Proof.
  intros Hb Hh w w' Hw. unfold try_except.
  destruct (Hb w w' Hw) as [Hr Hp].
  destruct (Hb w' w (eq_sym Hw)) as [_ Hp'].
  destruct (body w) as [[a|e] w1], (body w') as [[a'|e'] w1'];
    simpl in *; try discriminate.
  - split; [exact Hr | congruence].
  - destruct (Hh w1 w1') as [Hr1 Hh1]; [congruence|].
    split; [exact Hr1 | congruence].
Qed.

End Frame.

Create HintDb heap_pure.
#[global] Hint Resolve heap_pure_ret heap_pure_lift heap_pure_raise
  heap_pure_getattr heap_pure_print : heap_pure.

(** Walks through a method's body, one statement at a time. *)
Ltac heap_pure_steps :=
  repeat first
    [ solve [auto with heap_pure]
    | apply heap_pure_try
    | apply heap_pure_bind; [| intros ?] ].

Section Layers.
Context `{Numeric}.

Lemma heap_pure_dense self x w : heap_pure (Adjacency.dense self x w).
Proof. unfold Adjacency.dense. heap_pure_steps. Qed.

Lemma heap_pure_shape_check self l :
  heap_pure (Adjacency.shape_check self l).
Proof. unfold Adjacency.shape_check. heap_pure_steps. Qed.

Lemma heap_pure_forward self l nv :
  heap_pure (Adjacency.forward self l nv).
Proof.
  unfold Adjacency.forward.
  repeat first
    [ apply heap_pure_dense
    | solve [auto with heap_pure]
    | apply heap_pure_bind; [| intros ?] ].
Qed.

Lemma heap_pure_Adjacency_call self inputs :
  heap_pure (Adjacency.call self inputs).
Proof.
  unfold Adjacency.call.
  repeat first
    [ apply heap_pure_shape_check
    | apply heap_pure_forward
    | apply heap_pure_try
    | solve [auto with heap_pure]
    | apply heap_pure_bind; [| intros ?] ].
Qed.

Lemma heap_pure_GNN_call self inputs : heap_pure (GNN.call self inputs).
Proof.
  unfold GNN.call.
  repeat (destruct inputs as [|? inputs]; [solve [auto with heap_pure]|]).
  destruct inputs; [| solve [auto with heap_pure]].
  heap_pure_steps.
Qed.

Lemma heap_pure_GraphOperator_call self adj :
  heap_pure (GraphOperator.call self adj).
Proof. unfold GraphOperator.call. heap_pure_steps. Qed.

Lemma heap_pure_pipeline op a g adj nv : heap_pure (pipeline op a g adj nv).
Proof.
  unfold pipeline.
  repeat first
    [ apply heap_pure_GraphOperator_call
    | apply heap_pure_Adjacency_call
    | apply heap_pure_GNN_call
    | apply heap_pure_bind; [| intros ?] ].
Qed.

(** Running a [heap_pure] computation a second time, in the world the
    first run left, gives the first run's result. *)
Lemma heap_pure_rerun {A} (m : M A) w :
  heap_pure m → fst (m (snd (m w))) = fst (m w).
Proof.
  intros Hm. destruct (Hm w w eq_refl) as [_ Hh].
  apply (Hm (snd (m w)) w Hh).
Qed.

End Layers.

(** ** Frame and determinism of the forward passes *)

Section ForwardPass.
Context `{Numeric}.

(** C10: no forward pass writes to the heap, so every weight tensor
    ([w0_1] .. [w2_2] of an [Adjacency] layer, [w0], [w1], [w2] of a
    [GNN] layer) and every other attribute of every object has after
    the call the value it had before, whatever the input and whether
    the call returns or raises. *)
Theorem C10_forward_pass_keeps_weights :
  ∀ (self : nat) (adj : tensor) (inputs : list tensor) (w : world),
    heap (snd (GraphOperator.call self adj w)) = heap w ∧
    heap (snd (Adjacency.call self inputs w)) = heap w ∧
    heap (snd (GNN.call self inputs w)) = heap w.
Proof.
  intros self adj inputs w. repeat split.
  - apply (heap_pure_GraphOperator_call self adj w w eq_refl).
  - apply (heap_pure_Adjacency_call self inputs w w eq_refl).
  - apply (heap_pure_GNN_call self inputs w w eq_refl).
Qed.

(** C9: with the same weights and the same inputs, a second run of the
    pipeline, started in the world the first run left, gives the result
    of the first run: the same tensor, or the same exception.  The same
    holds of each of the three forward passes on its own. *)
Theorem C9_forward_pass_deterministic :
  ∀ (op adjacency gnn self : nat) (adj node_vec : tensor)
    (inputs : list tensor) (w : world),
    let run := pipeline op adjacency gnn adj node_vec in
    fst (run (snd (run w))) = fst (run w) ∧
    fst (GraphOperator.call self adj (snd (GraphOperator.call self adj w)))
      = fst (GraphOperator.call self adj w) ∧
    fst (Adjacency.call self inputs (snd (Adjacency.call self inputs w)))
      = fst (Adjacency.call self inputs w) ∧
    fst (GNN.call self inputs (snd (GNN.call self inputs w)))
      = fst (GNN.call self inputs w).
Proof.
  intros. repeat split.
  - apply heap_pure_rerun, heap_pure_pipeline.
  - apply heap_pure_rerun, heap_pure_GraphOperator_call.
  - apply heap_pure_rerun, heap_pure_Adjacency_call.
  - apply heap_pure_rerun, heap_pure_GNN_call.
Qed.

End ForwardPass.

(** ** Stepping through a method *)

Section Steps.
Context `{Numeric}.

Lemma bind_lift {A B} (r : result A) (f : A → M B) (w : world) :
  (lift r ≫= f) w =
  match r with Ok a => f a w | Raise e => (Raise e, w) end.
Proof. reflexivity. Qed.

Lemma bind_getattr {B} self name (f : value → M B) (w : world) :
  (getattr self name ≫= f) w =
  match heap w !! self ≫= (.!! name) with
  | Some v => f v w
  | None => (Raise AttributeError, w)
  end.
Proof.
  unfold mbind at 1, M_bind, getattr.
  destruct (heap w !! self ≫= _); reflexivity.
Qed.

Lemma py_init_snoc {A} (l : list A) (x : A) : py_init (l ++ [x]) = l.
Proof. apply removelast_last. Qed.

Lemma py_last_snoc {A} (l : list A) (x : A) : py_last (l ++ [x]) = Ok x.
Proof. unfold py_last. rewrite last_snoc. reflexivity. Qed.

End Steps.

(** ** GraphOperator *)

Section GraphOperatorFacts.
Context `{Numeric}.

Lemma world_blind_lift {A} (r : result A) : world_blind (lift r).
Proof. exists r. reflexivity. Qed.

Lemma world_blind_ret {A} (a : A) : world_blind (mret a).
Proof. exists (Ok a). reflexivity. Qed.

Lemma world_blind_bind {A B} (m : M A) (f : A → M B) :
  world_blind m → (∀ a, world_blind (f a)) → world_blind (m ≫= f).
Proof.
  intros [r Hr] Hf. destruct r as [a|e].
  - destruct (Hf a) as [r' Hr']. exists r'. intros w.
    unfold mbind, M_bind. rewrite Hr. apply Hr'.
  - exists (Raise e). intros w. unfold mbind, M_bind. rewrite Hr.
    reflexivity.
Qed.

Lemma GraphOperator_call_pure (self : nat) (adj : tensor) :
  world_blind (GraphOperator.call self adj).
Proof.
  unfold GraphOperator.call.
  repeat first
    [ apply world_blind_lift
    | apply world_blind_ret
    | apply world_blind_bind; [| intros ?] ].
Qed.

(** What [GraphOperator.call] returns has three members. *)
Lemma GraphOperator_call_length (self : nat) (adj : tensor) (w : world)
    (ops : list tensor) :
  fst (GraphOperator.call self adj w) = Ok ops → length ops = 3.
Proof.
  unfold GraphOperator.call.
  repeat (rewrite bind_lift;
          match goal with
          | |- context [match ?r with Ok _ => _ | Raise _ => _ end] =>
              destruct r; [cbv beta iota | discriminate]
          end).
  simpl. intros [= <-]. reflexivity.
Qed.

(** C8: two values of the [power] given to the constructor lead, on the
    same adjacency input, to the same outcome of [GraphOperator.call],
    and a returned operator set has exactly 3 members. *)
Theorem C8_power_is_inert :
  ∀ (self : nat) (adj : tensor) (w : world) (p1 p2 : Z),
    let w1 := snd (GraphOperator.__init__ self p1 w) in
    let w2 := snd (GraphOperator.__init__ self p2 w) in
    fst (GraphOperator.call self adj w1) = fst (GraphOperator.call self adj w2) ∧
    (∀ ops, fst (GraphOperator.call self adj w1) = Ok ops → length ops = 3).
Proof.
  intros self adj w p1 p2 w1 w2. split.
  - destruct (GraphOperator_call_pure self adj) as [r Hr].
    rewrite (Hr w1), (Hr w2). reflexivity.
  - intros ops. apply GraphOperator_call_length.
Qed.

(** C5: on an input whose two matrix dimensions differ (shape
    [b, r, c] with [r ≠ c], such as [1, 3, 4]), [GraphOperator.call]
    raises the assertion's error and returns no operator set. *)
Theorem C5_non_square_raises :
  ∀ (self : nat) (adj : tensor) (w : world) (b r c : nat),
    shape adj = [b; r; c] → r ≠ c →
    GraphOperator.call self adj w = (Raise AssertionError, w).
Proof.
  intros self adj w b r c Hs Hrc.
  unfold GraphOperator.call, shape_at. rewrite Hs.
  change (py_index [b; r; c] 1) with (Ok r).
  change (py_index [b; r; c] 2) with (Ok c).
  do 3 (rewrite bind_lift; cbv beta iota).
  destruct (Nat.eqb_spec r c) as [->|_]; [contradiction|]. reflexivity.
Qed.

(** An input of rank below 3, such as a plain 3×4 matrix, fails earlier,
    on [adj.shape[2]]. *)
Lemma GraphOperator_call_rank_2 (self : nat) (adj : tensor) (w : world)
    (r c : nat) :
  shape adj = [r; c] →
  GraphOperator.call self adj w = (Raise IndexError, w).
Proof.
  intros Hs. unfold GraphOperator.call, shape_at. rewrite Hs. reflexivity.
Qed.

End GraphOperatorFacts.

(** ** Adjacency: the count of operators *)

Section AdjacencyCount.
Context `{Numeric}.

(** C6: when the operators before the node features are not 3 in
    number, [Adjacency.call] raises the assertion's error; nothing has
    been printed and nothing written, so neither the shape check nor any
    transformation has run. *)
Theorem C6_wrong_count_raises :
  ∀ (self : nat) (adj_list : list tensor) (node_vec : tensor) (w : world),
    length adj_list ≠ 3 →
    Adjacency.call self (adj_list ++ [node_vec]) w = (Raise AssertionError, w).
Proof.
  intros self adj_list node_vec w Hlen.
  unfold Adjacency.call. rewrite py_init_snoc, py_last_snoc.
  do 2 (rewrite bind_lift; cbv beta iota).
  destruct (Nat.eqb_spec (length adj_list) 3) as [E|_]; [contradiction|].
  reflexivity.
Qed.

(** The empty input list has no node features either: [inputs[-1]]
    fails before the assertion. *)
Lemma Adjacency_call_nil (self : nat) (w : world) :
  Adjacency.call self [] w = (Raise IndexError, w).
Proof. reflexivity. Qed.

End AdjacencyCount.

(** ** Tensor operations on matrices *)

Section MatrixFacts.
Context `{Numeric}.

Lemma bshape_rev_diag (s : list nat) : bshape_rev s s = Some s.
Proof.
  induction s as [|d s IH]; [reflexivity|].
  simpl. rewrite Nat.eqb_refl, IH. reflexivity.
Qed.

Lemma broadcast_shapes_diag (s : list nat) : broadcast_shapes s s = Some s.
Proof.
  unfold broadcast_shapes. rewrite bshape_rev_diag. simpl.
  rewrite reverse_involutive. reflexivity.
Qed.

Lemma broadcast2_same_shape (f : num → num → num) (a b : tensor)
    (s : list nat) :
  shape a = s → shape b = s →
  ∃ c, broadcast2 f a b = Ok c ∧ shape c = s.
Proof.
  intros Ha Hb. unfold broadcast2.
  rewrite Ha, Hb, broadcast_shapes_diag. eexists. split; reflexivity.
Qed.

(** An index of a shape is read as it is: broadcasting changes nothing
    between tensors of one shape. *)
Lemma indices_bidx (s idx : list nat) :
  idx ∈ indices s →
  length idx = length s ∧
  zip_with (λ d i, if d =? 1 then 0 else i) s idx = idx.
Proof.
  revert idx. induction s as [|d s IH]; intros idx Hin; simpl in Hin.
  - apply list_elem_of_singleton in Hin as ->. split; reflexivity.
  - apply list_elem_of_In, in_flat_map in Hin as (i & Hi & Hin).
    apply in_seq in Hi. apply in_map_iff in Hin as (idx' & <- & Hin).
    apply list_elem_of_In, IH in Hin as [Hlen Hzip]. simpl.
    rewrite Hlen, Hzip. split; [reflexivity|].
    destruct (Nat.eqb_spec d 1) as [->|_]; [f_equal; lia | reflexivity].
Qed.

Lemma broadcast2_elementwise (f : num → num → num) (a b : tensor)
    (s : list nat) :
  shape a = s → shape b = s →
  broadcast2 f a b
    = Ok (Tensor s (map (λ idx, f (tget a idx) (tget b idx)) (indices s))).
Proof.
  intros Ha Hb. unfold broadcast2.
  rewrite Ha, Hb, broadcast_shapes_diag. do 2 f_equal.
  apply map_ext_in. intros idx Hin. apply list_elem_of_In in Hin.
  destruct (indices_bidx s idx Hin) as [Hlen Hzip].
  unfold bget, bidx. rewrite Ha, Hb, Hlen, Nat.sub_diag, drop_0, Hzip.
  reflexivity.
Qed.

Lemma flat_map_ext_seq {A} (f g : nat → list A) (s n : nat) :
  (∀ i, s ≤ i < s + n → f i = g i) →
  flat_map f (seq s n) = flat_map g (seq s n).
Proof.
  intros Hfg. rewrite !flat_map_concat_map. f_equal.
  apply map_ext_in. intros i Hi. apply in_seq in Hi. auto.
Qed.

(** Inside a matrix, reading with broadcasting is plain reading. *)
Lemma bget_2d (t : tensor) (m n i j : nat) :
  shape t = [m; n] → i < m → j < n → bget t [i; j] = tget t [i; j].
Proof.
  intros Hs Hi Hj. unfold bget, bidx. rewrite Hs. simpl.
  destruct (Nat.eqb_spec m 1) as [->|_], (Nat.eqb_spec n 1) as [->|_];
    repeat f_equal; lia.
Qed.

(** On two matrices [tf.matmul] is the matrix product. *)
Lemma tf_matmul_2d (a b : tensor) (m k n : nat) :
  shape a = [m; k] → shape b = [k; n] →
  tf_matmul a b = Ok (matprod m k n a b).
Proof.
  intros Ha Hb. unfold tf_matmul, matprod. rewrite Ha, Hb.
  change (reverse [m; k]) with [k; m].
  change (reverse [k; n]) with [n; k].
  cbv beta iota. rewrite Nat.eqb_refl. simpl bshape_rev. cbv beta iota.
  change (reverse []) with (@nil nat). simpl indices.
  do 2 f_equal. simpl flat_map at 1. rewrite app_nil_r.
  apply flat_map_ext_seq. intros i Hi.
  apply map_ext_in. intros j Hj. apply in_seq in Hj.
  f_equal. apply map_ext_in. intros l Hl. apply in_seq in Hl.
  simpl app.
  rewrite (bget_2d a m k), (bget_2d b k n) by (assumption || lia).
  reflexivity.
Qed.

Lemma flat_map_flat_lookup {A} (f : nat → nat → A) (m n i j : nat) :
  i < m → j < n →
  flat_map (λ i, map (f i) (seq 0 n)) (seq 0 m) !! (i * n + j)
    = Some (f i j).
Proof.
  intros Hi Hj.
  assert (G : ∀ m s, i < m →
    flat_map (λ i, map (f i) (seq 0 n)) (seq s m) !! (i * n + j)
      = Some (f (s + i) j)).
  { clear m Hi. intros m. revert i.
    induction m as [|m IH]; intros i s Hi; [lia|].
    simpl. destruct i as [|i].
    - rewrite lookup_app_l by (rewrite length_map, length_seq; lia).
      rewrite list_lookup_fmap, lookup_seq_lt by lia.
      simpl. rewrite Nat.add_0_r. reflexivity.
    - rewrite lookup_app_r by (rewrite length_map, length_seq; lia).
      rewrite length_map, length_seq.
      replace (S i * n + j - n) with (i * n + j) by lia.
      rewrite IH by lia.
      replace (S s + i) with (s + S i) by lia. reflexivity. }
  apply (G m 0 Hi).
Qed.

(** The entries of [tf.eye(n)] are those of the identity matrix. *)
Lemma tf_eye_entry (n i j : nat) :
  i < n → j < n →
  tget (tf_eye n) [i; j] = if i =? j then of_int 1 else of_int 0.
Proof.
  intros Hi Hj. unfold tget, tf_eye. simpl.
  replace (i * (n * 1) + (j * 1 + 0)) with (i * n + j) by lia.
  rewrite flat_map_flat_lookup by assumption. reflexivity.
Qed.

(** The entries of a matrix product are the sums of products. *)
Lemma matprod_entry (a b : tensor) (m k n i j : nat) :
  i < m → j < n →
  tget (matprod m k n a b) [i; j]
    = reduce_sum
        (map (λ l, num_mul (tget a [i; l]) (tget b [l; j])) (seq 0 k)).
Proof.
  intros Hi Hj. unfold tget at 1, matprod. simpl.
  replace (i * (n * 1) + (j * 1 + 0)) with (i * n + j) by lia.
  rewrite flat_map_flat_lookup by assumption. reflexivity.
Qed.

End MatrixFacts.

(** ** GraphOperator on a square matrix *)

Section GraphOperatorSquare.
Context `{Numeric}.

Lemma tf_squeeze_batch (adj : tensor) (n : nat) :
  shape adj = [1; n; n] → n ≠ 1 →
  tf_squeeze adj = Tensor [n; n] (data adj).
Proof.
  intros Hs Hn. unfold tf_squeeze. rewrite Hs. f_equal.
  rewrite filter_cons_False by (intros ?; congruence).
  rewrite !filter_cons_True by assumption. reflexivity.
Qed.

(** On a batch of one [n]×[n] matrix, [n] other than 1, the call returns
    the identity, the product of the matrix by itself, and the product
    of that by the matrix. *)
Lemma GraphOperator_call_square (self : nat) (adj : tensor) (w : world)
    (n : nat) :
  shape adj = [1; n; n] → n ≠ 1 →
  let a := Tensor [n; n] (data adj) in
  let A1 := matprod n n n a a in
  let A2 := matprod n n n A1 a in
  tf_matmul a a = Ok A1 ∧ tf_matmul A1 a = Ok A2 ∧
  GraphOperator.call self adj w = (Ok [tf_eye n; A1; A2], w).
Proof.
  intros Hs Hn a A1 A2.
  assert (E1 : tf_matmul a a = Ok A1) by (apply tf_matmul_2d; reflexivity).
  assert (E2 : tf_matmul A1 a = Ok A2) by (apply tf_matmul_2d; reflexivity).
  repeat split; try assumption.
  unfold GraphOperator.call, shape_at.
  rewrite (tf_squeeze_batch adj n Hs Hn), Hs. fold a.
  change (py_index [1; n; n] 1) with (Ok n).
  change (py_index [1; n; n] 2) with (Ok n).
  change (py_index (shape a) 0) with (Ok n).
  do 3 (rewrite bind_lift; cbv beta iota).
  rewrite Nat.eqb_refl. simpl py_assert. cbv beta iota.
  rewrite bind_lift. cbv beta iota.
  rewrite bind_lift, E1. cbv beta iota.
  rewrite bind_lift, E2. reflexivity.
Qed.

(** C1, at a graph of one node: the batch of one 1×1 matrix loses all
    three of its dimensions in [tf.squeeze], and [adj.shape[0]] raises
    instead of the call returning [[A0, A1, A2]]. *)
Theorem C1_single_node_raises :
  ∀ (self : nat) (x : num) (w : world),
    GraphOperator.call self (Tensor [1; 1; 1] [x]) w = (Raise IndexError, w).
Proof. reflexivity. Qed.

End GraphOperatorSquare.

(** ** The distance transform *)

Section DistanceTransform.
Context `{Numeric}.

(** A loop whose body, when it succeeds, leaves the state as it was
    returns the initial state, when it returns. *)
Lemma for_enumerate_unchanged {A St} (body : nat → A → St → result St)
    (l : list A) :
  (∀ k x st st', body k x st = Ok st' → st' = st) →
  ∀ k st out, for_enumerate k l body st = Ok out → out = st.
Proof.
  intros Hb. induction l as [|x l IH]; intros k st out; simpl.
  - intros [= <-]. reflexivity.
  - destruct (body k x st) as [st'|e] eqn:E; [| discriminate].
    simpl. intros Hl. apply IH in Hl. apply Hb in E. congruence.
Qed.

(** A loop whose body succeeds on each element without changing the
    state returns the initial state. *)
Lemma for_enumerate_skip {A St} (body : nat → A → St → result St)
    (l : list A) (st : St) :
  (∀ k x, x ∈ l → body k x st = Ok st) →
  ∀ k, for_enumerate k l body st = Ok st.
Proof.
  induction l as [|x l IH]; intros Hb k; simpl; [reflexivity|].
  rewrite Hb by left. simpl. apply IH. intros k' y Hy. apply Hb. by right.
Qed.

(** The exceptions of a loop are those of its body. *)
Lemma for_enumerate_raises {A St} (P : exn → Prop)
    (body : nat → A → St → result St) (l : list A) :
  (∀ k x st e, body k x st = Raise e → P e) →
  ∀ k st e, for_enumerate k l body st = Raise e → P e.
Proof.
  intros Hb. induction l as [|x l IH]; intros k st e; simpl; [discriminate|].
  destruct (body k x st) as [st'|e'] eqn:E; simpl.
  - apply IH.
  - intros [= <-]. eapply Hb, E.
Qed.

(** The body of the loops never changes [new_adj]: the two branches that
    assign raise, the third does nothing. *)
Lemma learn_entry_unchanged (node_vec : tensor) (ik jk : nat)
    (adj_ij new_adj out : tensor) :
  Adjacency.learn_entry node_vec ik jk adj_ij new_adj = Ok out →
  out = new_adj.
Proof.
  unfold Adjacency.learn_entry, tf_setitem.
  destruct (tensor_eq_const adj_ij 0) as [[]|]; simpl; try discriminate.
  destruct (tensor_eq_const adj_ij 1) as [[]|]; simpl; try discriminate.
  - destruct (tf_getitem node_vec ik); simpl; try discriminate.
    destruct (tf_getitem node_vec jk); simpl; try discriminate.
    destruct (tf_sub _ _); simpl; discriminate.
  - intros [= <-]. reflexivity.
Qed.

(** A scalar entry that equals neither 0 nor 1 takes the branch that
    does nothing. *)
Lemma learn_entry_other (node_vec : tensor) (ik jk : nat) (x : num)
    (new_adj : tensor) :
  num_eqb x (of_int 0) = false → num_eqb x (of_int 1) = false →
  Adjacency.learn_entry node_vec ik jk (scalar x) new_adj = Ok new_adj.
Proof.
  intros H0 H1. unfold Adjacency.learn_entry, tensor_eq_const. simpl.
  rewrite H0. simpl. rewrite H1. reflexivity.
Qed.

(** Whatever the transform returns is the matrix of zeros it started
    from. *)
Lemma learn_adjacencies_zeros (adj node_vec out : tensor) :
  Adjacency._learn_adjacencies adj node_vec = Ok out →
  out = tf_zeros_like adj.
Proof.
  unfold Adjacency._learn_adjacencies.
  destruct (tf_iter adj) as [rows|]; simpl; [| discriminate].
  apply for_enumerate_unchanged. intros ik i st st'.
  destruct (tf_iter i) as [cols|]; simpl; [| discriminate].
  apply for_enumerate_unchanged. intros jk j st0 st0'.
  apply learn_entry_unchanged.
Qed.

Lemma tget_zeros_like (adj : tensor) (idx : list nat) :
  tget (tf_zeros_like adj) idx = of_int 0.
Proof.
  unfold tget, tf_zeros_like. simpl.
  destruct (replicate _ _ !! _) as [x|] eqn:E; [| reflexivity].
  apply lookup_replicate in E as [-> _]. reflexivity.
Qed.

(** The entries of a matrix, as the two loops meet them. *)
Lemma take_1_drop {A} (l : list A) (j : nat) (x : A) :
  l !! j = Some x → take 1 (drop j l) = [x].
Proof.
  intros Hj. rewrite <- (take_drop_middle l j x Hj).
  rewrite drop_app_length'
    by (rewrite length_take; apply lookup_lt_Some in Hj; lia).
  reflexivity.
Qed.

Lemma slice_entry (adj : tensor) (n m i j : nat) :
  shape adj = [n; m] → wf adj → i < n → j < m →
  ∃ x, x ∈ data adj ∧ data adj !! (i * m + j) = Some x ∧
       slice [] (slice [m] adj i) j = scalar x.
Proof.
  intros Hs Hwf Hi Hj. unfold wf in Hwf. rewrite Hs in Hwf. simpl in Hwf.
  assert (Hlt : i * m + j < length (data adj)) by nia.
  destruct (lookup_lt_is_Some_2 _ _ Hlt) as [x Hx].
  exists x. split; [eapply list_elem_of_lookup_2, Hx|]. split; [exact Hx|].
  unfold slice, scalar. simpl. f_equal.
  rewrite !Nat.mul_1_r. apply take_1_drop.
  rewrite lookup_take_lt by lia. rewrite lookup_drop. exact Hx.
Qed.

(** On a matrix none of whose entries equals 0 or 1 the transform
    returns, and what it returns is the matrix of zeros. *)
Lemma learn_adjacencies_skip_all (adj node_vec : tensor) (n m : nat) :
  shape adj = [n; m] → wf adj →
  (∀ x, x ∈ data adj →
     num_eqb x (of_int 0) = false ∧ num_eqb x (of_int 1) = false) →
  Adjacency._learn_adjacencies adj node_vec = Ok (tf_zeros_like adj).
Proof.
  intros Hs Hwf Hall. unfold Adjacency._learn_adjacencies, tf_iter.
  rewrite Hs. simpl.
  apply for_enumerate_skip. intros ik row Hrow.
  apply list_elem_of_fmap in Hrow as (i & -> & Hi).
  apply list_elem_of_In, in_seq in Hi. simpl.
  apply for_enumerate_skip. intros jk e He.
  apply list_elem_of_fmap in He as (j & -> & Hj).
  apply list_elem_of_In, in_seq in Hj.
  destruct (slice_entry adj n m i j Hs Hwf) as (x & Hx & _ & ->); [lia..|].
  destruct (Hall x Hx). by apply learn_entry_other.
Qed.

(** On a matrix with at least one entry, all entries 0 or 1, and node
    features with as many rows, the transform raises at the first
    entry: a tensor does not support item assignment. *)
Lemma learn_adjacencies_binary_raises (adj node_vec : tensor)
    (n m f : nat) :
  shape adj = [n; m] → wf adj → 0 < n → 0 < m →
  shape node_vec = [n; f] →
  (∀ x, x ∈ data adj →
     num_eqb x (of_int 0) = true ∨ num_eqb x (of_int 1) = true) →
  Adjacency._learn_adjacencies adj node_vec = Raise TypeError.
Proof.
  intros Hs Hwf Hn Hm Hv Hall.
  destruct (slice_entry adj n m 0 0 Hs Hwf Hn Hm) as (x & Hx & _ & Hx0).
  unfold Adjacency._learn_adjacencies, tf_iter. rewrite Hs.
  destruct n as [|n]; [lia|]. destruct m as [|m]; [lia|].
  simpl. rewrite Hx0.
  unfold Adjacency.learn_entry, tensor_eq_const. simpl.
  destruct (num_eqb x (of_int 0)) eqn:E0; simpl; [reflexivity|].
  destruct (Hall x Hx) as [E|E]; [congruence|]. rewrite E. simpl.
  unfold tf_getitem. rewrite Hv. simpl.
  destruct (broadcast2_same_shape num_sub
              (slice [f] node_vec 0) (slice [f] node_vec 0) [f]
              eq_refl eq_refl) as (d & Ed & _).
  fold tf_sub in Ed. rewrite Ed. reflexivity.
Qed.

End DistanceTransform.

(** ** Adjacency: the shape check and what follows it *)

Section AdjacencyCheck.
Context `{Numeric}.

Lemma world_keeping_lift {A} (r : result A) : world_keeping (lift r).
Proof. intros w. reflexivity. Qed.

Lemma world_keeping_getattr self name : world_keeping (getattr self name).
Proof.
  intros w. unfold getattr. destruct (heap w !! self ≫= _); reflexivity.
Qed.

Lemma world_keeping_bind {A B} (m : M A) (f : A → M B) :
  world_keeping m → (∀ a, world_keeping (f a)) → world_keeping (m ≫= f).
Proof.
  intros Hm Hf w. unfold mbind, M_bind. specialize (Hm w).
  destruct (m w) as [[a|e] w1]; simpl in Hm; subst w1; [apply Hf | reflexivity].
Qed.

Lemma world_keeping_shape_check self l :
  world_keeping (Adjacency.shape_check self l).
Proof.
  unfold Adjacency.shape_check.
  repeat first
    [ apply world_keeping_lift
    | apply world_keeping_getattr
    | apply world_keeping_bind; [| intros ?] ].
Qed.

Lemma raises_in_lift {A} P (r : result A) :
  raises_only P r → raises_in P (lift r).
Proof. intros Hr w. exact Hr. Qed.

Lemma raises_in_ret {A} P (a : A) : raises_in P (mret a).
Proof. intros w e. discriminate. Qed.

Lemma raises_in_getattr P self name :
  P AttributeError → raises_in P (getattr self name).
Proof.
  intros HP w e. unfold getattr.
  destruct (heap w !! self ≫= _); simpl; [discriminate|].
  intros [= <-]. exact HP.
Qed.

Lemma raises_in_bind {A B} P (m : M A) (f : A → M B) :
  raises_in P m → (∀ a, raises_in P (f a)) → raises_in P (m ≫= f).
Proof.
  intros Hm Hf w e. unfold mbind, M_bind. specialize (Hm w e).
  destruct (m w) as [[a|e'] w1]; simpl in *; [apply Hf |].
  intros [= ->]. apply Hm. reflexivity.
Qed.

Lemma never_returns_bind_l {A B} (m : M A) (f : A → M B) :
  never_returns m → never_returns (m ≫= f).
Proof.
  intros Hm w. unfold mbind, M_bind. specialize (Hm w).
  destruct (m w) as [[a|e] w1]; simpl in *; [discriminate | reflexivity].
Qed.

Lemma never_returns_bind_r {A B} (m : M A) (f : A → M B) :
  (∀ a, never_returns (f a)) → never_returns (m ≫= f).
Proof.
  intros Hf w. unfold mbind, M_bind.
  destruct (m w) as [[a|e] w1]; simpl; [apply Hf | reflexivity].
Qed.

(* Closes [raises_only not_assertion r] for an operation [r] whose
   exceptions are all written out in its definition. *)
Ltac no_assertion :=
  intros e; unfold not_assertion;
  repeat case_match; intros; simplify_eq; done.

Lemma py_index_no_assert {A} (l : list A) i :
  raises_only not_assertion (py_index l i).
Proof. unfold py_index. no_assertion. Qed.

Lemma tf_reshape_no_assert (t : tensor) s :
  raises_only not_assertion (tf_reshape t s).
Proof. unfold tf_reshape. no_assertion. Qed.

Lemma broadcast2_no_assert f (a b : tensor) :
  raises_only not_assertion (broadcast2 f a b).
Proof. unfold broadcast2. no_assertion. Qed.

Lemma learn_entry_no_assert (node_vec : tensor) ik jk
    (adj_ij new_adj : tensor) :
  raises_only not_assertion
    (Adjacency.learn_entry node_vec ik jk adj_ij new_adj).
Proof.
  unfold Adjacency.learn_entry, tensor_eq_const, tf_getitem, tf_setitem,
    tf_sub, broadcast2.
  intros e; unfold not_assertion.
  repeat (case_match; simpl in *; simplify_eq); intros; simplify_eq; done.
Qed.

Lemma learn_adjacencies_no_assert (adj node_vec : tensor) :
  raises_only not_assertion (Adjacency._learn_adjacencies adj node_vec).
Proof.
  unfold Adjacency._learn_adjacencies. intros e.
  destruct (tf_iter adj) as [rows|e'] eqn:Er; simpl.
  - apply for_enumerate_raises. intros ik i st e1.
    destruct (tf_iter i) as [cols|e''] eqn:Ec; simpl.
    + apply for_enumerate_raises. intros jk j st0 e2.
      apply learn_entry_no_assert.
    + unfold tf_iter in Ec. intros [= <-]. unfold not_assertion.
      destruct (shape i); simplify_eq; done.
  - unfold tf_iter in Er. intros [= <-]. unfold not_assertion.
    destruct (shape adj); simplify_eq; done.
Qed.

(** [tf.matmul] is called without its second argument: [dense] raises
    in every world, and never an assertion error. *)
Lemma dense_never_returns self (x : tensor) wn :
  never_returns (Adjacency.dense self x wn).
Proof.
  unfold Adjacency.dense. apply never_returns_bind_r. intros wv.
  apply never_returns_bind_r. intros p.
  apply never_returns_bind_l. intros w. reflexivity.
Qed.

Lemma dense_no_assert self (x : tensor) wn :
  raises_in not_assertion (Adjacency.dense self x wn).
Proof.
  unfold Adjacency.dense.
  apply raises_in_bind; [apply raises_in_getattr; discriminate | intros wv].
  apply raises_in_bind;
    [apply raises_in_lift, broadcast2_no_assert | intros p].
  apply raises_in_bind; [| intros y; apply raises_in_ret].
  apply raises_in_lift. intros e [= <-]. discriminate.
Qed.

Lemma forward_no_assert self l (nv : tensor) :
  raises_in not_assertion (Adjacency.forward self l nv).
Proof.
  unfold Adjacency.forward.
  repeat first
    [ apply dense_no_assert
    | apply raises_in_ret
    | apply raises_in_lift;
      first [ apply py_index_no_assert
            | apply learn_adjacencies_no_assert
            | apply tf_reshape_no_assert ]
    | apply raises_in_bind; [| intros ?] ].
Qed.

Lemma forward_never_returns self l (nv : tensor) :
  never_returns (Adjacency.forward self l nv).
Proof.
  unfold Adjacency.forward.
  do 6 (apply never_returns_bind_r; intros ?).
  apply never_returns_bind_l, dense_never_returns.
Qed.

(** No call of [Adjacency.call] returns: each ends in an exception. *)
Lemma Adjacency_call_never_returns self (inputs : list tensor) :
  never_returns (Adjacency.call self inputs).
Proof.
  unfold Adjacency.call.
  do 3 (apply never_returns_bind_r; intros ?).
  apply forward_never_returns.
Qed.

(** C4, as the code has it: with three operators in the list, nothing
    that the check of the shapes against the weights raises reaches the
    caller.  The call goes on with [forward] (the squeeze, the distance
    transform and the rest), after printing "Error 87 layer" when the
    check raised; and the exception the call ends in is never an
    assertion error. *)
Theorem C4_shape_check_swallowed :
  ∀ (self : nat) (a0 a1 a2 node_vec : tensor) (w : world),
    let adj_list := [a0; a1; a2] in
    let w' := if is_ok (fst (Adjacency.shape_check self adj_list w))
              then w else printed_error_87 w in
    Adjacency.call self [a0; a1; a2; node_vec] w
      = Adjacency.forward self adj_list node_vec w' ∧
    fst (Adjacency.call self [a0; a1; a2; node_vec] w) ≠ Raise AssertionError.
Proof.
  intros self a0 a1 a2 node_vec w adj_list w'.
  assert (E : Adjacency.call self [a0; a1; a2; node_vec] w
              = Adjacency.forward self adj_list node_vec w').
  { unfold Adjacency.call.
    change (py_init [a0; a1; a2; node_vec]) with adj_list.
    change (py_last [a0; a1; a2; node_vec]) with (Ok node_vec).
    do 2 (rewrite bind_lift; cbv beta iota).
    change (py_assert (length adj_list =? 3) (Ok ())) with (Ok ()).
    cbv beta iota. unfold mbind at 1, M_bind at 1, try_except.
    subst w'. pose proof (world_keeping_shape_check self adj_list w) as Hk.
    destruct (Adjacency.shape_check self adj_list w) as [[[]|e] w1];
      simpl in *; subst w1; reflexivity. }
  split; [exact E|].
  rewrite E. intros Hr.
  apply (forward_no_assert self adj_list node_vec w' _ Hr). reflexivity.
Qed.

End AdjacencyCheck.

(** ** The entries the distance transform passes over *)

Section OtherEntries.
Context `{Numeric}.

Lemma tget_2d (adj : tensor) (n m i j : nat) (x : num) :
  shape adj = [n; m] → data adj !! (i * m + j) = Some x →
  tget adj [i; j] = x.
Proof.
  intros Hs Hx. unfold tget. rewrite Hs. simpl.
  replace (i * (m * 1) + (j * 1 + 0)) with (i * m + j) by lia.
  rewrite Hx. reflexivity.
Qed.

(** C7: at an entry [adj[i,j]] that equals neither 0 nor 1, the body of
    the loops raises nothing and leaves [new_adj] as it is; whenever the
    transform returns, the output has 0 at [(i,j)]; and when no entry of
    the matrix equals 0 or 1 the transform does return, the matrix of
    zeros. *)
Theorem C7_other_entries_left_zero :
  ∀ (adj node_vec : tensor) (n m i j : nat),
    shape adj = [n; m] → wf adj → i < n → j < m →
    num_eqb (tget adj [i; j]) (of_int 0) = false →
    num_eqb (tget adj [i; j]) (of_int 1) = false →
    (∀ new_adj,
       Adjacency.learn_entry node_vec i j (slice [] (slice [m] adj i) j)
         new_adj = Ok new_adj) ∧
    (∀ out,
       Adjacency._learn_adjacencies adj node_vec = Ok out →
       tget out [i; j] = of_int 0) ∧
    ((∀ x, x ∈ data adj →
        num_eqb x (of_int 0) = false ∧ num_eqb x (of_int 1) = false) →
     Adjacency._learn_adjacencies adj node_vec = Ok (tf_zeros_like adj)).
Proof.
  intros adj node_vec n m i j Hs Hwf Hi Hj H0 H1.
  destruct (slice_entry adj n m i j Hs Hwf Hi Hj) as (x & _ & Hx & ->).
  rewrite (tget_2d adj n m i j x Hs Hx) in H0, H1.
  split; [| split].
  - intros new_adj. by apply learn_entry_other.
  - intros out Hout. apply learn_adjacencies_zeros in Hout as ->.
    apply tget_zeros_like.
  - intros Hall. by apply (learn_adjacencies_skip_all adj node_vec n m).
Qed.

End OtherEntries.

(** ** The model on concrete inputs *)

Section Concrete.
Local Existing Instance Z_numeric.

(** What [GraphOperator.call] returns on the path on three nodes: the
    second operator has the entry 2 where two walks exist. *)
Example GraphOperator_call_path3 :
  GraphOperator.call 0 path3 empty_world = (Ok path3_ops, empty_world).
Proof. reflexivity. Qed.

(** C2, on the example of the specification: for the adjacency
    [[0,1],[1,0]] and the node features [[0,0],[3,4]] the transform does
    not return [[0,5],[5,0]]; the assignment [new_adj[0,0] = 0] raises
    [TypeError]. *)
Theorem C2_distance_example_raises :
  Adjacency._learn_adjacencies
    (ztensor [2; 2] [0; 1; 1; 0]%Z) (ztensor [2; 2] [0; 0; 3; 4]%Z)
  = Raise TypeError.
Proof. reflexivity. Qed.

(** The norm the second branch computes before its assignment raises is
    the 5 of the example. *)
Example distance_example_norm :
  (vi ← tf_getitem (ztensor [2; 2] [0; 0; 3; 4]%Z) 0;
   vj ← tf_getitem (ztensor [2; 2] [0; 0; 3; 4]%Z) 1;
   d ← tf_sub vi vj; Ok (tf_norm d))
  = Ok (scalar 5%Z).
Proof. reflexivity. Qed.

(** C4, as stated, fails: the layer is built for 1 node, so that its
    weights are 1×1, and it is given the three 3×3 operators of the path
    on three nodes, of flattened dimension 9.  No assertion error
    reaches the caller: "Error 87 layer" is printed, the call goes on to
    the distance transform, and ends in the [TypeError] of the
    assignment to [new_adj]. *)
Lemma C4_counterexample :
  let w := adjacency_world 1 in
  heap w !! 1 ≫= (.!! "w0_1")
    = Some (VTensor (const_init 1 "w0_1" [1; 1])) ∧
  Forall (λ a, numel (shape a) = 9) path3_ops ∧
  Adjacency.call 1 (path3_ops ++ [path3_features]) w
    = (Raise TypeError, printed_error_87 w) ∧
  fst (Adjacency.call 1 (path3_ops ++ [path3_features]) w)
    ≠ Raise AssertionError.
Proof.
  repeat split.
  - repeat constructor.
  - vm_compute. discriminate.
Qed.

End Concrete.

(** ** The general statements at concrete inputs *)

Section Instances.
Local Existing Instance Z_numeric.

(** C4 at the layer built for 1 node and the 3×3 operators: the check
    raised, the line was printed, and the call went on with [forward]. *)
Lemma C4_shape_check_swallowed_witness :
  let w := adjacency_world 1 in
  Adjacency.call 1 (path3_ops ++ [path3_features]) w
    = Adjacency.forward 1 path3_ops path3_features (printed_error_87 w) ∧
  fst (Adjacency.call 1 (path3_ops ++ [path3_features]) w)
    ≠ Raise AssertionError.
Proof.
  exact (C4_shape_check_swallowed 1
           (ztensor [3; 3] [1; 0; 0;  0; 1; 0;  0; 0; 1]%Z)
           (ztensor [3; 3] [1; 0; 1;  0; 2; 0;  1; 0; 1]%Z)
           (ztensor [3; 3] [0; 2; 0;  2; 0; 2;  0; 2; 0]%Z)
           path3_features (adjacency_world 1)).
Defined.

(** C5 at a batch of one 3×4 matrix. *)
Lemma C5_non_square_raises_witness :
  let adj := ztensor [1; 3; 4] (replicate 12 1%Z) in
  shape adj = [1; 3; 4] ∧ 3 ≠ 4 ∧
  GraphOperator.call 0 adj empty_world = (Raise AssertionError, empty_world).
Proof.
  split; [reflexivity|]. split; [lia|].
  apply (C5_non_square_raises 0 _ empty_world 1 3 4); [reflexivity | lia].
Defined.

(** C6 at a list of two operators and the node features. *)
Lemma C6_wrong_count_raises_witness :
  let adj_list := take 2 path3_ops in
  length adj_list ≠ 3 ∧
  Adjacency.call 1 (adj_list ++ [path3_features]) (adjacency_world 3)
    = (Raise AssertionError, adjacency_world 3).
Proof.
  split; [simpl; lia|].
  apply (C6_wrong_count_raises 1 (take 2 path3_ops) path3_features).
  simpl; lia.
Defined.

(** C7 at the matrix [[2,2],[2,2]], the square of the 2×2 matrix of
    ones, and its entry [(0,1)]. *)
Lemma C7_other_entries_left_zero_witness :
  let adj := ztensor [2; 2] [2; 2; 2; 2]%Z in
  let node_vec := ztensor [2; 2] [0; 0; 3; 4]%Z in
  tget adj [0; 1] = 2%Z ∧
  Adjacency._learn_adjacencies adj node_vec
    = Ok (ztensor [2; 2] [0; 0; 0; 0]%Z) ∧
  tget (ztensor [2; 2] [0; 0; 0; 0]%Z) [0; 1] = 0%Z.
Proof.
  intros adj node_vec.
  destruct (C7_other_entries_left_zero adj node_vec 2 2 0 1)
    as (_ & Hzero & Hall); try reflexivity; try lia.
  split; [reflexivity|].
  assert (E : Adjacency._learn_adjacencies adj node_vec
              = Ok (ztensor [2; 2] [0; 0; 0; 0]%Z)).
  { apply Hall. intros x Hx.
    repeat (apply elem_of_cons in Hx as [-> | Hx]; [split; reflexivity|]).
    by apply elem_of_nil in Hx. }
  split; [exact E | exact (Hzero _ E)].
Defined.

(** C8 at the powers 2 and 7. *)
Lemma C8_power_is_inert_witness :
  let w1 := snd (GraphOperator.__init__ 0 2 empty_world) in
  let w2 := snd (GraphOperator.__init__ 0 7 empty_world) in
  fst (GraphOperator.call 0 path3 w1) = Ok path3_ops ∧
  fst (GraphOperator.call 0 path3 w2) = fst (GraphOperator.call 0 path3 w1) ∧
  length path3_ops = 3.
Proof.
  intros w1 w2.
  destruct (C8_power_is_inert 0 path3 empty_world 2 7) as [E L].
  split; [reflexivity|]. split; [symmetry; exact E|].
  apply L. reflexivity.
Defined.

End Instances.

(** * Further properties of the layers *)

(** ** GraphOperator: the operators entry by entry, ranks and batches *)

Section GraphOperatorMore.
Context `{Numeric}.

Lemma tget_batch_of_one (adj : tensor) (n i k : nat) :
  shape adj = [1; n; n] →
  tget (Tensor [n; n] (data adj)) [i; k] = tget adj [0; i; k].
Proof. intros Hs. unfold tget. rewrite Hs. reflexivity. Qed.

(** X1: on a batch of one [n]×[n] matrix, [n] other than 1, [call]
    returns three [n]×[n] matrices: the identity, the matrix whose entry
    [(i,j)] is the sum over [k] of [adj[i,k] * adj[k,j]] (the square of
    the input, not the input), and the matrix whose entry [(i,j)] is the
    sum over [k] of that second operator at [(i,k)] times [adj[k,j]]. *)
Theorem X1_operators_entrywise :
  ∀ (self : nat) (adj : tensor) (w : world) (n : nat),
    shape adj = [1; n; n] → n ≠ 1 →
    ∃ A0 A1 A2 : tensor,
      GraphOperator.call self adj w = (Ok [A0; A1; A2], w) ∧
      shape A0 = [n; n] ∧ shape A1 = [n; n] ∧ shape A2 = [n; n] ∧
      ∀ i j, i < n → j < n →
        tget A0 [i; j] = (if i =? j then of_int 1 else of_int 0) ∧
        tget A1 [i; j]
          = reduce_sum
              (map (λ k, num_mul (tget adj [0; i; k]) (tget adj [0; k; j]))
                   (seq 0 n)) ∧
        tget A2 [i; j]
          = reduce_sum
              (map (λ k, num_mul (tget A1 [i; k]) (tget adj [0; k; j]))
                   (seq 0 n)).
Proof.
  intros self adj w n Hs Hn.
  destruct (GraphOperator_call_square self adj w n Hs Hn) as (_ & _ & Hc).
  eexists _, _, _. split; [exact Hc|].
  repeat (split; [reflexivity|]).
  intros i j Hi Hj. split; [by apply tf_eye_entry|].
  rewrite !matprod_entry by assumption. split.
  - apply f_equal, map_ext. intros k.
    rewrite !(tget_batch_of_one adj n) by assumption. reflexivity.
  - apply f_equal, map_ext. intros k.
    rewrite !(tget_batch_of_one adj n) by assumption. reflexivity.
Qed.

(** X2: an input of rank below 3, such as a plain [n]×[n] matrix without
    its batch dimension, is refused with [IndexError] by the reading of
    [adj.shape[1]] or [adj.shape[2]], before the assertion. *)
Theorem X2_rank_below_3_raises :
  ∀ (self : nat) (adj : tensor) (w : world),
    length (shape adj) < 3 →
    GraphOperator.call self adj w = (Raise IndexError, w).
Proof.
  intros self adj w Hr. unfold GraphOperator.call, shape_at.
  destruct (shape adj) as [|a [|b [|c s]]]; simpl in Hr;
    [reflexivity | reflexivity | reflexivity | lia].
Qed.

Lemma tf_squeeze_no_ones (t : tensor) :
  Forall (λ d, d ≠ 1) (shape t) → tf_squeeze t = t.
Proof.
  intros Hall. unfold tf_squeeze. destruct t as [s d]. simpl in *. f_equal.
  induction Hall as [|x l Hx _ IH]; [reflexivity|].
  rewrite filter_cons_True by assumption. f_equal. exact IH.
Qed.

(** The product of two batches of as many matrices. *)
Lemma tf_matmul_batch_shape (a c : tensor) (b m k n : nat) :
  shape a = [b; m; k] → shape c = [b; k; n] →
  ∃ r, tf_matmul a c = Ok r ∧ shape r = [b; m; n].
Proof.
  intros Ha Hc. unfold tf_matmul. rewrite Ha, Hc.
  change (reverse [b; m; k]) with [k; m; b].
  change (reverse [b; k; n]) with [n; k; b].
  cbv beta iota. rewrite Nat.eqb_refl. simpl bshape_rev.
  rewrite Nat.eqb_refl. simpl. eexists. split; reflexivity.
Qed.

(** X3: a batch of [b] matrices, [b] other than 1, is not squeezed, and
    [n = adj.shape[0]] is then the batch size: the first operator is the
    identity of size [b]×[b], not [n]×[n], while the two others keep the
    shape [[b, n, n]] of the input. *)
Theorem X3_batch_identity_has_batch_size :
  ∀ (self : nat) (adj : tensor) (w : world) (b n : nat),
    shape adj = [b; n; n] → b ≠ 1 → n ≠ 1 →
    ∃ A1 A2 : tensor,
      GraphOperator.call self adj w = (Ok [tf_eye b; A1; A2], w) ∧
      shape (tf_eye b) = [b; b] ∧
      shape A1 = [b; n; n] ∧ shape A2 = [b; n; n].
Proof.
  intros self adj w b n Hs Hb Hn.
  assert (Hsq : tf_squeeze adj = adj).
  { apply tf_squeeze_no_ones. rewrite Hs. repeat constructor; assumption. }
  destruct (tf_matmul_batch_shape adj adj b n n n Hs Hs) as (A1 & E1 & S1).
  destruct (tf_matmul_batch_shape A1 adj b n n n S1 Hs) as (A2 & E2 & S2).
  exists A1, A2. repeat split; try assumption.
  unfold GraphOperator.call, shape_at. rewrite Hsq, Hs.
  change (py_index [b; n; n] 1) with (Ok n).
  change (py_index [b; n; n] 2) with (Ok n).
  change (py_index [b; n; n] 0) with (Ok b).
  do 3 (rewrite bind_lift; cbv beta iota).
  rewrite Nat.eqb_refl. simpl py_assert. cbv beta iota.
  rewrite bind_lift. cbv beta iota.
  rewrite bind_lift, E1. cbv beta iota.
  rewrite bind_lift, E2. reflexivity.
Qed.

(** X4: for [n] other than 1 the shapes of the three operators are what
    [compute_output_shape] reports for the input shape [(n, n)], the
    shape without the batch dimension; for the shape [(1, n, n)] that
    [call] receives it reports three times that shape, which no operator
    has. *)
Theorem X4_compute_output_shape_agrees :
  ∀ (self : nat) (adj : tensor) (w : world) (n : nat),
    shape adj = [1; n; n] → n ≠ 1 →
    ∃ ops : list tensor,
      GraphOperator.call self adj w = (Ok ops, w) ∧
      map shape ops = GraphOperator.compute_output_shape [n; n] ∧
      Forall (λ s, s ≠ shape adj) (map shape ops).
Proof.
  intros self adj w n Hs Hn.
  destruct (GraphOperator_call_square self adj w n Hs Hn) as (_ & _ & Hc).
  eexists. split; [exact Hc|]. split; [reflexivity|].
  rewrite Hs. simpl. repeat constructor; discriminate.
Qed.

End GraphOperatorMore.

(** ** Construction and build of the layers: the weights *)

Section Attributes.
Context `{Numeric}.

Lemma attr_setattr (self self' : nat) (name name' : string) (v : value)
    (w : world) :
  attr (snd (setattr self name v w)) self' name'
    = if decide (self' = self ∧ name' = name) then Some v
      else attr w self' name'.
Proof.
  unfold attr, setattr. simpl.
  destruct (decide (self' = self)) as [->|Hs].
  - rewrite lookup_insert_eq. simpl.
    destruct (decide (name' = name)) as [->|Hn].
    + rewrite lookup_insert_eq. by rewrite decide_True.
    + rewrite lookup_insert_ne by congruence.
      rewrite decide_False by (intros [_ ?]; congruence).
      destruct (heap w !! self); simpl; [reflexivity | apply lookup_empty].
  - rewrite lookup_insert_ne by congruence.
    rewrite decide_False by (intros [? _]; congruence). reflexivity.
Qed.

Lemma bind_setattr {B} self name v (f : unit → M B) (w : world) :
  (setattr self name v ≫= f) w = f tt (snd (setattr self name v w)).
Proof. reflexivity. Qed.

Lemma getattr_attr self name (w : world) (v : value) :
  attr w self name = Some v → getattr self name w = (Ok v, w).
Proof. unfold attr, getattr. intros ->. reflexivity. Qed.

(** With its dimension stored as a non-negative integer, [add_weight]
    is the assignment of the drawn tensor. *)
Lemma add_weight_ok init self dim name (w : world) (z : Z) :
  attr w self dim = Some (VInt z) → (0 ≤ z)%Z →
  add_weight init self dim name w
    = setattr self name (VTensor (init name [Z.to_nat z; Z.to_nat z])) w.
Proof.
  intros Ha Hz. unfold add_weight.
  unfold mbind at 1, M_bind at 1. rewrite (getattr_attr _ _ _ _ Ha).
  unfold mbind at 1, M_bind at 1. rewrite (getattr_attr _ _ _ _ Ha).
  rewrite bind_lift. simpl as_dim.
  destruct (Z.ltb_spec z 0) as [?|_]; [lia|]. reflexivity.
Qed.

End Attributes.

Section BuiltLayers.
Context `{Numeric}.

Lemma bind_add_weight_ok {B} init self dim name (f : unit → M B)
    (w : world) (z : Z) :
  attr w self dim = Some (VInt z) → (0 ≤ z)%Z →
  (add_weight init self dim name ≫= f) w
    = f tt (snd (setattr self name
                   (VTensor (init name [Z.to_nat z; Z.to_nat z])) w)).
Proof.
  intros Ha Hz. unfold mbind, M_bind.
  rewrite (add_weight_ok init self dim name w z Ha Hz). reflexivity.
Qed.

Lemma Adjacency_init_world (self : nat) (nf mn : Z) (w : world) :
  snd (Adjacency.__init__ self nf mn w)
    = snd (setattr self "input_units" (VInt (mn * mn))
        (snd (setattr self "n_features" (VInt nf)
          (snd (setattr self "max_nodes" (VInt mn) w))))).
Proof. reflexivity. Qed.

Lemma GNN_init_world (self : nat) (nf nn : Z) (w : world) :
  snd (GNN.__init__ self nf nn w)
    = snd (setattr self "n_nodes" (VInt nn)
        (snd (setattr self "n_features" (VInt nf) w))).
Proof. reflexivity. Qed.

(* Reads an attribute through the assignments made since it was set. *)
Ltac read_attr :=
  repeat (rewrite attr_setattr;
          first [ rewrite decide_False by (intros [_ ?]; discriminate)
                | rewrite decide_True by (split; reflexivity) ]);
  try reflexivity.

(** X7: after [__init__] and [build] of an [Adjacency] layer, whatever
    [max_nodes] is, [build] has succeeded and each of the six weights is
    a tensor of shape [[max_nodes², max_nodes²]] (the initializer giving
    tensors of the shape it is asked for); the object has an attribute
    [w0] only if it had one before. *)
Theorem X7_adjacency_built_weights :
  ∀ init (self : nat) (n_features max_nodes : Z) (w : world),
    (∀ name s, shape (init name s) = s) →
    let r := (Adjacency.__init__ self n_features max_nodes;;
              Adjacency.build init self) w in
    let u := Z.to_nat (max_nodes * max_nodes) in
    fst r = Ok tt ∧
    (∀ name, name ∈ Adjacency.weight_names →
       ∃ t, attr (snd r) self name = Some (VTensor t) ∧ shape t = [u; u]) ∧
    attr (snd r) self "w0" = attr w self "w0".
Proof.
  intros init self nf mn w Hinit r u.
  assert (Hz : (0 ≤ mn * mn)%Z) by nia.
  assert (Er : r = (Ok tt,
    snd (setattr self "w2_2" (VTensor (init "w2_2" [u; u]))
    (snd (setattr self "w2_1" (VTensor (init "w2_1" [u; u]))
    (snd (setattr self "w1_2" (VTensor (init "w1_2" [u; u]))
    (snd (setattr self "w1_1" (VTensor (init "w1_1" [u; u]))
    (snd (setattr self "w0_2" (VTensor (init "w0_2" [u; u]))
    (snd (setattr self "w0_1" (VTensor (init "w0_1" [u; u]))
    (snd (Adjacency.__init__ self nf mn w))))))))))))))).
  { subst r.
    change ((Adjacency.__init__ self nf mn;; Adjacency.build init self) w)
      with (Adjacency.build init self
              (snd (Adjacency.__init__ self nf mn w))).
    unfold Adjacency.build.
    do 5 (rewrite (bind_add_weight_ok _ _ _ _ _ _ (mn * mn)%Z);
          [| rewrite Adjacency_init_world; read_attr | exact Hz]).
    rewrite (add_weight_ok _ _ _ _ _ (mn * mn)%Z);
      [| rewrite Adjacency_init_world; read_attr | exact Hz].
    reflexivity. }
  rewrite Er. cbn [fst snd]. split; [reflexivity|]. split.
  - intros name Hin. unfold Adjacency.weight_names in Hin.
    repeat (apply elem_of_cons in Hin as [->|Hin];
            [eexists; split; [read_attr | apply Hinit]|]).
    by apply elem_of_nil in Hin.
  - rewrite Adjacency_init_world. read_attr.
Qed.

(** After [__init__] and [build] of a [GNN] layer with a non-negative
    [n_features], the three weights are tensors of shape
    [[n_features, n_features]]. *)
Lemma GNN_built_weights init (self : nat) (n_features n_nodes : Z)
    (w : world) :
  (∀ name s, shape (init name s) = s) → (0 ≤ n_features)%Z →
  let r := (GNN.__init__ self n_features n_nodes;;
            GNN.build init self) w in
  let F := Z.to_nat n_features in
  fst r = Ok tt ∧ stdout (snd r) = stdout w ∧
  ∃ w0 w1 w2,
    attr (snd r) self "w0" = Some (VTensor w0) ∧
    attr (snd r) self "w1" = Some (VTensor w1) ∧
    attr (snd r) self "w2" = Some (VTensor w2) ∧
    shape w0 = [F; F] ∧ shape w1 = [F; F] ∧ shape w2 = [F; F].
Proof.
  intros Hinit Hz r F.
  assert (Er : r = (Ok tt,
    snd (setattr self "w2" (VTensor (init "w2" [F; F]))
    (snd (setattr self "w1" (VTensor (init "w1" [F; F]))
    (snd (setattr self "w0" (VTensor (init "w0" [F; F]))
    (snd (GNN.__init__ self n_features n_nodes w))))))))).
  { subst r.
    change ((GNN.__init__ self n_features n_nodes;; GNN.build init self) w)
      with (GNN.build init self (snd (GNN.__init__ self n_features n_nodes w))).
    unfold GNN.build.
    do 2 (rewrite (bind_add_weight_ok _ _ _ _ _ _ n_features);
          [| rewrite GNN_init_world; read_attr | exact Hz]).
    rewrite (add_weight_ok _ _ _ _ _ n_features);
      [| rewrite GNN_init_world; read_attr | exact Hz].
    reflexivity. }
  rewrite Er. cbn [fst snd].
  split; [reflexivity|]. split; [reflexivity|].
  eexists _, _, _.
  repeat split; first [apply Hinit | read_attr].
Qed.

End BuiltLayers.

(** ** GNN: shapes, entries and failures *)

Section GNNMore.
Context `{Numeric}.

Lemma length_indices (s : list nat) : length (indices s) = numel s.
Proof.
  induction s as [|d s IH]; [reflexivity|]. simpl.
  rewrite (flat_map_constant_length (c := numel s)).
  - rewrite length_seq. reflexivity.
  - intros i _. rewrite length_map. exact IH.
Qed.

(** Reading a list made of blocks of one length. *)
Lemma flat_map_block_lookup {A} (g : nat → list A) (c d i j : nat) :
  (∀ i, length (g i) = c) → i < d → j < c →
  flat_map g (seq 0 d) !! (i * c + j) = g i !! j.
Proof.
  intros Hg Hi Hj.
  assert (G : ∀ d s, i < d →
    flat_map g (seq s d) !! (i * c + j) = g (s + i) !! j).
  { clear d Hi. intros d. revert i.
    induction d as [|d IH]; intros i s Hi; [lia|].
    simpl. destruct i as [|i].
    - rewrite lookup_app_l by (rewrite Hg; lia).
      rewrite Nat.add_0_r. reflexivity.
    - rewrite lookup_app_r by (rewrite Hg; lia). rewrite Hg.
      replace (S i * c + j - c) with (i * c + j) by lia.
      rewrite IH by lia.
      replace (S s + i) with (s + S i) by lia. reflexivity. }
  apply (G d 0 Hi).
Qed.

(** A multi-index of a shape sits in the list of indices at its own
    offset. *)
Lemma indices_lookup (s idx : list nat) :
  idx ∈ indices s → indices s !! offset s idx = Some idx.
Proof.
  revert idx. induction s as [|d s IH]; intros idx Hin; simpl in Hin.
  - apply list_elem_of_singleton in Hin as ->. reflexivity.
  - apply list_elem_of_In, in_flat_map in Hin as (i & Hi & Hin).
    apply in_seq in Hi. apply in_map_iff in Hin as (idx' & <- & Hin).
    apply list_elem_of_In, IH in Hin. simpl.
    pose proof (lookup_lt_Some _ _ _ Hin) as Hlt.
    rewrite length_indices in Hlt.
    rewrite (flat_map_block_lookup _ (numel s)); [| | lia | exact Hlt].
    + rewrite list_lookup_fmap, Hin. reflexivity.
    + intros k. rewrite length_map. apply length_indices.
Qed.

Lemma tget_tabulate (s idx : list nat) (f : list nat → num) :
  idx ∈ indices s → tget (Tensor s (map f (indices s))) idx = f idx.
Proof.
  intros Hin. unfold tget. simpl.
  rewrite list_lookup_fmap, (indices_lookup s idx Hin). reflexivity.
Qed.

Lemma indices_2d_elem (m n i j : nat) :
  i < m → j < n → [i; j] ∈ indices [m; n].
Proof.
  intros Hi Hj. simpl. apply list_elem_of_In, in_flat_map.
  exists i. split; [apply in_seq; lia|].
  apply in_map, in_flat_map. exists j. split; [apply in_seq; lia|].
  by left.
Qed.

(** [GNN.call] on matrices: three products, two additions entry by
    entry, and the ReLU. *)
Lemma GNN_call_matrices (self : nat) (X A0 A1 A2 w0 w1 w2 : tensor)
    (w : world) (M N F G : nat) :
  shape X = [N; F] →
  shape A0 = [M; N] → shape A1 = [M; N] → shape A2 = [M; N] →
  attr w self "w0" = Some (VTensor w0) →
  attr w self "w1" = Some (VTensor w1) →
  attr w self "w2" = Some (VTensor w2) →
  shape w0 = [F; G] → shape w1 = [F; G] → shape w2 = [F; G] →
  let p1 := matprod M F G (matprod M N F A0 X) w0 in
  let p2 := matprod M F G (matprod M N F A1 X) w1 in
  let p3 := matprod M F G (matprod M N F A2 X) w2 in
  GNN.call self [X; A0; A1; A2] w
    = (Ok (Tensor [M; G]
             (map (λ idx, num_relu (num_add (num_add (tget p1 idx)
                                                      (tget p2 idx))
                                            (tget p3 idx)))
                  (indices [M; G]))), w).
Proof.
  intros HX HA0 HA1 HA2 G0 G1 G2 H0 H1 H2 p1 p2 p3.
  pose proof (tf_matmul_2d A0 X M N F HA0 HX) as E0.
  pose proof (tf_matmul_2d A1 X M N F HA1 HX) as E1.
  pose proof (tf_matmul_2d A2 X M N F HA2 HX) as E2.
  pose proof (tf_matmul_2d (matprod M N F A0 X) w0 M F G eq_refl H0) as P0.
  pose proof (tf_matmul_2d (matprod M N F A1 X) w1 M F G eq_refl H1) as P1.
  pose proof (tf_matmul_2d (matprod M N F A2 X) w2 M F G eq_refl H2) as P2.
  fold p1 in P0. fold p2 in P1. fold p3 in P2.
  pose proof (broadcast2_elementwise num_add p1 p2 [M; G] eq_refl eq_refl)
    as Es.
  fold tf_add in Es.
  set (s := Tensor [M; G]
              (map (λ idx, num_add (tget p1 idx) (tget p2 idx))
                   (indices [M; G]))) in Es.
  pose proof (broadcast2_elementwise num_add s p3 [M; G] eq_refl eq_refl)
    as Eo.
  fold tf_add in Eo.
  unfold attr in G0, G1, G2. unfold GNN.call.
  rewrite bind_lift, E0. cbv beta iota.
  rewrite bind_getattr, G0. cbv beta iota.
  simpl as_tensor. rewrite bind_lift, P0. cbv beta iota.
  rewrite bind_lift, E1. cbv beta iota.
  rewrite bind_getattr, G1. cbv beta iota.
  simpl as_tensor. rewrite bind_lift, P1. cbv beta iota.
  rewrite bind_lift, E2. cbv beta iota.
  rewrite bind_getattr, G2. cbv beta iota.
  simpl as_tensor. rewrite bind_lift, P2. cbv beta iota.
  rewrite bind_lift, Es. cbv beta iota.
  rewrite bind_lift, Eo. cbv beta iota.
  unfold mret, M_ret, tf_relu. cbn [shape data].
  do 3 f_equal. rewrite map_map.
  apply map_ext_in. intros idx Hin. apply list_elem_of_In in Hin.
  unfold s. rewrite tget_tabulate by exact Hin. reflexivity.
Qed.

(** C3: on node features [X] of shape [N, F], three learned adjacencies
    of shape [N, N] and weights of shape [F, F], [GNN.call] returns the
    ReLU of the sum of the three products [A_k @ X @ w_k]: the output
    has the shape [N, F] of [X], and its entry [(i,j)] is the ReLU of
    [(P0[i,j] + P1[i,j]) + P2[i,j]], where [Pk[i,j]] is the sum over [l]
    of [(sum over m of Ak[i,m] * X[m,l]) * wk[l,j]]. *)
Theorem C3_gnn_call :
  ∀ (self : nat) (X A0 A1 A2 w0 w1 w2 : tensor) (w : world) (N F : nat),
    shape X = [N; F] →
    shape A0 = [N; N] → shape A1 = [N; N] → shape A2 = [N; N] →
    heap w !! self ≫= (.!! "w0") = Some (VTensor w0) →
    heap w !! self ≫= (.!! "w1") = Some (VTensor w1) →
    heap w !! self ≫= (.!! "w2") = Some (VTensor w2) →
    shape w0 = [F; F] → shape w1 = [F; F] → shape w2 = [F; F] →
    let P := λ (A wk : tensor) (i j : nat),
      reduce_sum
        (map (λ l,
           num_mul
             (reduce_sum
                (map (λ m, num_mul (tget A [i; m]) (tget X [m; l]))
                     (seq 0 N)))
             (tget wk [l; j]))
           (seq 0 F)) in
    ∃ p1 p2 p3 s out : tensor,
      (tf_matmul A0 X ≫= λ ax, tf_matmul ax w0) = Ok p1 ∧
      (tf_matmul A1 X ≫= λ ax, tf_matmul ax w1) = Ok p2 ∧
      (tf_matmul A2 X ≫= λ ax, tf_matmul ax w2) = Ok p3 ∧
      tf_add p1 p2 = Ok s ∧ tf_add s p3 = Ok out ∧
      GNN.call self [X; A0; A1; A2] w = (Ok (tf_relu out), w) ∧
      shape (tf_relu out) = shape X ∧
      ∀ i j, i < N → j < F →
        tget (tf_relu out) [i; j]
          = num_relu (num_add (num_add (P A0 w0 i j) (P A1 w1 i j))
                              (P A2 w2 i j)).
Proof.
  intros self X A0 A1 A2 w0 w1 w2 w N F HX HA0 HA1 HA2 G0 G1 G2 H0 H1 H2 P.
  pose proof (tf_matmul_2d A0 X N N F HA0 HX) as E0.
  pose proof (tf_matmul_2d A1 X N N F HA1 HX) as E1.
  pose proof (tf_matmul_2d A2 X N N F HA2 HX) as E2.
  pose proof (tf_matmul_2d (matprod N N F A0 X) w0 N F F eq_refl H0) as P0.
  pose proof (tf_matmul_2d (matprod N N F A1 X) w1 N F F eq_refl H1) as P1.
  pose proof (tf_matmul_2d (matprod N N F A2 X) w2 N F F eq_refl H2) as P2.
  set (p1 := matprod N F F (matprod N N F A0 X) w0) in *.
  set (p2 := matprod N F F (matprod N N F A1 X) w1) in *.
  set (p3 := matprod N F F (matprod N N F A2 X) w2) in *.
  destruct (broadcast2_same_shape num_add p1 p2 [N; F] eq_refl eq_refl)
    as (s & Es & Hs).
  destruct (broadcast2_same_shape num_add s p3 [N; F] Hs eq_refl)
    as (out & Eo & Ho).
  fold tf_add in Es, Eo.
  assert (Hcall : GNN.call self [X; A0; A1; A2] w = (Ok (tf_relu out), w)).
  { unfold GNN.call.
    rewrite bind_lift, E0. cbv beta iota.
    rewrite bind_getattr, G0. cbv beta iota.
    simpl as_tensor. rewrite bind_lift, P0. cbv beta iota.
    rewrite bind_lift, E1. cbv beta iota.
    rewrite bind_getattr, G1. cbv beta iota.
    simpl as_tensor. rewrite bind_lift, P1. cbv beta iota.
    rewrite bind_lift, E2. cbv beta iota.
    rewrite bind_getattr, G2. cbv beta iota.
    simpl as_tensor. rewrite bind_lift, P2. cbv beta iota.
    rewrite bind_lift, Es. cbv beta iota.
    rewrite bind_lift, Eo. reflexivity. }
  exists p1, p2, p3, s, out.
  split; [rewrite E0; exact P0|]. split; [rewrite E1; exact P1|].
  split; [rewrite E2; exact P2|]. split; [exact Es|]. split; [exact Eo|].
  split; [exact Hcall|]. split; [simpl; congruence|].
  intros i j Hi Hj.
  pose proof (GNN_call_matrices self X A0 A1 A2 w0 w1 w2 w N N F F
                HX HA0 HA1 HA2 G0 G1 G2 H0 H1 H2) as Hm.
  cbv zeta in Hm.
  match type of Hm with _ = (Ok ?T, _) => set (r := T) in Hm end.
  assert (Hr : tf_relu out = r) by congruence.
  rewrite Hr. unfold r.
  rewrite tget_tabulate by (apply indices_2d_elem; assumption).
  rewrite !matprod_entry by assumption.
  assert (HP : ∀ A wk,
    reduce_sum
      (map (λ l, num_mul (tget (matprod N N F A X) [i; l]) (tget wk [l; j]))
           (seq 0 F)) = P A wk i j).
  { intros A wk. unfold P. f_equal. apply map_ext_in. intros l Hl.
    apply in_seq in Hl. rewrite matprod_entry by lia. reflexivity. }
  rewrite !HP. reflexivity.
Qed.

(** X8: [GNN.call] does not ask for square adjacencies nor square
    weights: with adjacencies of shape [[M, N]], features of shape
    [[N, F]] and weights of shape [[F, G]] it returns a matrix of shape
    [[M, G]] whose entry [(i,j)] is the ReLU of
    [(P0[i,j] + P1[i,j]) + P2[i,j]], where [Pk[i,j]] is the sum over [l]
    of [(sum over m of Ak[i,m] * X[m,l]) * wk[l,j]]; the world is left
    as it was. *)
Theorem X8_gnn_call_entrywise :
  ∀ (self : nat) (X A0 A1 A2 w0 w1 w2 : tensor) (w : world)
    (M N F G : nat),
    shape X = [N; F] →
    shape A0 = [M; N] → shape A1 = [M; N] → shape A2 = [M; N] →
    attr w self "w0" = Some (VTensor w0) →
    attr w self "w1" = Some (VTensor w1) →
    attr w self "w2" = Some (VTensor w2) →
    shape w0 = [F; G] → shape w1 = [F; G] → shape w2 = [F; G] →
    let P := λ (A wk : tensor) (i j : nat),
      reduce_sum
        (map (λ l,
           num_mul
             (reduce_sum
                (map (λ m, num_mul (tget A [i; m]) (tget X [m; l]))
                     (seq 0 N)))
             (tget wk [l; j]))
           (seq 0 F)) in
    ∃ out : tensor,
      GNN.call self [X; A0; A1; A2] w = (Ok out, w) ∧
      shape out = [M; G] ∧
      ∀ i j, i < M → j < G →
        tget out [i; j]
          = num_relu (num_add (num_add (P A0 w0 i j) (P A1 w1 i j))
                              (P A2 w2 i j)).
Proof.
  intros self X A0 A1 A2 w0 w1 w2 w M N F G HX HA0 HA1 HA2 G0 G1 G2
    H0 H1 H2 P.
  eexists. split; [| split].
  - apply (GNN_call_matrices self X A0 A1 A2 w0 w1 w2 w M N F G);
      assumption.
  - reflexivity.
  - intros i j Hi Hj.
    rewrite tget_tabulate by (apply indices_2d_elem; assumption).
    rewrite !matprod_entry by assumption.
    assert (HP : ∀ A wk,
      reduce_sum
        (map (λ l, num_mul (tget (matprod M N F A X) [i; l]) (tget wk [l; j]))
             (seq 0 F)) = P A wk i j).
    { intros A wk. unfold P. f_equal. apply map_ext_in. intros l Hl.
      apply in_seq in Hl. rewrite matprod_entry by lia. reflexivity. }
    rewrite !HP. reflexivity.
Qed.

(** X9: [GNN.call] unpacks exactly four inputs: on a list of any other
    length it raises [ValueError] before any product, and leaves the
    world as it was. *)
Theorem X9_gnn_call_wrong_count :
  ∀ (self : nat) (inputs : list tensor) (w : world),
    length inputs ≠ 4 →
    GNN.call self inputs w = (Raise ValueError, w).
Proof.
  intros self inputs w Hlen. unfold GNN.call.
  destruct inputs as [|X [|A0 [|A1 [|A2 [|? ?]]]]]; simpl in Hlen;
    try reflexivity.
  lia.
Qed.

(** X10: when the number of columns of the first learned adjacency is
    not the number of rows of the node features, [GNN.call] raises
    [InvalidArgumentError] at its first product, whatever the weights
    are and even when the layer has none. *)
Theorem X10_gnn_call_inner_mismatch :
  ∀ (self : nat) (X A0 A1 A2 : tensor) (w : world) (M K N F : nat),
    shape A0 = [M; K] → shape X = [N; F] → K ≠ N →
    GNN.call self [X; A0; A1; A2] w = (Raise InvalidArgumentError, w).
Proof.
  intros self X A0 A1 A2 w M K N F HA HX Hne. unfold GNN.call.
  rewrite bind_lift. unfold tf_matmul. rewrite HA, HX.
  change (reverse [M; K]) with [K; M].
  change (reverse [N; F]) with [F; N]. cbv beta iota.
  destruct (Nat.eqb_spec K N) as [?|_]; [contradiction | reflexivity].
Qed.

(** X11: on a layer that has not been built (no attribute [w0]),
    [GNN.call] on well-shaped inputs raises [AttributeError] after its
    first product, and leaves the world as it was. *)
Theorem X11_gnn_call_unbuilt :
  ∀ (self : nat) (X A0 A1 A2 : tensor) (w : world) (M N F : nat),
    shape A0 = [M; N] → shape X = [N; F] →
    attr w self "w0" = None →
    GNN.call self [X; A0; A1; A2] w = (Raise AttributeError, w).
Proof.
  intros self X A0 A1 A2 w M N F HA HX Hw0. unfold GNN.call.
  rewrite bind_lift, (tf_matmul_2d A0 X M N F HA HX). cbv beta iota.
  unfold attr in Hw0. rewrite bind_getattr, Hw0. reflexivity.
Qed.

(** X12: a [GNN] layer constructed with a non-negative [n_features] and
    built accepts node features of shape [[N, n_features]] with three
    [N]×[N] adjacencies: [call] returns, the output has the shape of the
    node features, which is what [compute_output_shape] reports for the
    shapes of the inputs, and the world is left as [build] made it. *)
Theorem X12_gnn_built_then_call :
  ∀ init (self : nat) (n_features n_nodes : Z) (w : world)
    (X A0 A1 A2 : tensor) (N : nat),
    (∀ name s, shape (init name s) = s) → (0 ≤ n_features)%Z →
    shape X = [N; Z.to_nat n_features] →
    shape A0 = [N; N] → shape A1 = [N; N] → shape A2 = [N; N] →
    let w' := snd ((GNN.__init__ self n_features n_nodes;;
                    GNN.build init self) w) in
    ∃ out : tensor,
      GNN.call self [X; A0; A1; A2] w' = (Ok out, w') ∧
      shape out = shape X ∧
      GNN.compute_output_shape (map shape [X; A0; A1; A2])
        = Ok (shape out).
Proof.
  intros init self nf nn w X A0 A1 A2 N Hinit Hz HX HA0 HA1 HA2 w'.
  destruct (GNN_built_weights init self nf nn w Hinit Hz)
    as (_ & _ & w0 & w1 & w2 & G0 & G1 & G2 & S0 & S1 & S2).
  fold w' in G0, G1, G2.
  eexists. split; [| split].
  - apply (GNN_call_matrices self X A0 A1 A2 w0 w1 w2 w' N N
             (Z.to_nat nf) (Z.to_nat nf)); assumption.
  - simpl. congruence.
  - unfold GNN.compute_output_shape. simpl. rewrite HX. reflexivity.
Qed.

End GNNMore.

(** ** Adjacency: what every call does *)

Section AdjacencyMore.
Context `{Numeric}.

Lemma world_keeping_ret {A} (a : A) : world_keeping (mret a).
Proof. intros w. reflexivity. Qed.

Lemma world_keeping_dense self (x : tensor) wn :
  world_keeping (Adjacency.dense self x wn).
Proof.
  unfold Adjacency.dense.
  repeat first
    [ apply world_keeping_lift
    | apply world_keeping_getattr
    | apply world_keeping_ret
    | apply world_keeping_bind; [| intros ?] ].
Qed.

Lemma world_keeping_forward self l (nv : tensor) :
  world_keeping (Adjacency.forward self l nv).
Proof.
  unfold Adjacency.forward.
  repeat first
    [ apply world_keeping_dense
    | apply world_keeping_lift
    | apply world_keeping_ret
    | apply world_keeping_bind; [| intros ?] ].
Qed.

(** With three operators, [call] is the check inside its [try], the
    line printed when the check raised, and [forward]. *)
Lemma Adjacency_call_three self (a0 a1 a2 node_vec : tensor) (w : world) :
  Adjacency.call self [a0; a1; a2; node_vec] w
    = Adjacency.forward self [a0; a1; a2] node_vec
        (if is_ok (fst (Adjacency.shape_check self [a0; a1; a2] w))
         then w else printed_error_87 w).
Proof.
  unfold Adjacency.call.
  change (py_init [a0; a1; a2; node_vec]) with [a0; a1; a2].
  change (py_last [a0; a1; a2; node_vec]) with (Ok node_vec).
  do 2 (rewrite bind_lift; cbv beta iota).
  change (py_assert (length [a0; a1; a2] =? 3) (Ok ())) with (Ok ()).
  cbv beta iota. unfold mbind at 1, M_bind at 1, try_except.
  pose proof (world_keeping_shape_check self [a0; a1; a2] w) as Hk.
  destruct (Adjacency.shape_check self [a0; a1; a2] w) as [[[]|e] w1];
    simpl in *; subst w1; reflexivity.
Qed.

(** Without an attribute [w0] the check raises. *)
Lemma shape_check_without_w0 self (l : list tensor) (w : world) :
  attr w self "w0" = None →
  is_ok (fst (Adjacency.shape_check self l w)) = false.
Proof.
  intros Hw0. unfold attr in Hw0. unfold Adjacency.shape_check.
  rewrite bind_lift. destruct (py_index l 0) as [a|]; [| reflexivity].
  rewrite bind_lift. destruct (shape_at a 0) as [r|]; [| reflexivity].
  rewrite bind_getattr, Hw0. reflexivity.
Qed.

(** X13: no call of [Adjacency.call] returns its list of learned
    adjacencies: whatever the layer, the inputs and the world, the call
    ends in an exception, and the heap is as it was. *)
Theorem X13_adjacency_call_always_raises :
  ∀ (self : nat) (inputs : list tensor) (w : world),
    (∃ e, fst (Adjacency.call self inputs w) = Raise e) ∧
    heap (snd (Adjacency.call self inputs w)) = heap w.
Proof.
  intros self inputs w. split.
  - pose proof (Adjacency_call_never_returns self inputs w) as Hn.
    destruct (fst (Adjacency.call self inputs w)) as [a|e];
      [discriminate | eauto].
  - apply (heap_pure_Adjacency_call self inputs w w eq_refl).
Qed.

(** X14: on a layer without an attribute [w0], which is every layer
    that [__init__] and [build] made, a call with three operators prints
    "Error 87 layer" once and nothing else, whatever the shapes of the
    operators and of the weights. *)
Theorem X14_adjacency_call_prints_once :
  ∀ (self : nat) (a0 a1 a2 node_vec : tensor) (w : world),
    attr w self "w0" = None →
    snd (Adjacency.call self [a0; a1; a2; node_vec] w)
      = printed_error_87 w.
Proof.
  intros self a0 a1 a2 node_vec w Hw0.
  rewrite Adjacency_call_three, (shape_check_without_w0 _ _ _ Hw0).
  apply world_keeping_forward.
Qed.

(** A loop returns the same with another body that returns whatever the
    first one returns. *)
Lemma for_enumerate_transfer {A St} (body body' : nat → A → St → result St)
    (l : list A) :
  (∀ k x st st', body k x st = Ok st' → body' k x st = Ok st') →
  ∀ k st out,
    for_enumerate k l body st = Ok out → for_enumerate k l body' st = Ok out.
Proof.
  intros Hb. induction l as [|x l IH]; intros k st out; simpl; [done|].
  destruct (body k x st) as [st'|e] eqn:E; [| discriminate].
  rewrite (Hb _ _ _ _ E). simpl. apply IH.
Qed.

Lemma learn_entry_transfer (nv nv' : tensor) ik jk (a st st' : tensor) :
  Adjacency.learn_entry nv ik jk a st = Ok st' →
  Adjacency.learn_entry nv' ik jk a st = Ok st'.
Proof.
  unfold Adjacency.learn_entry, tf_setitem.
  destruct (tensor_eq_const a 0) as [[]|]; simpl; try discriminate.
  destruct (tensor_eq_const a 1) as [[]|]; simpl; try discriminate; [|done].
  destruct (tf_getitem nv ik); simpl; try discriminate.
  destruct (tf_getitem nv jk); simpl; try discriminate.
  destruct (tf_sub _ _); simpl; discriminate.
Qed.

(** X15: whenever [_learn_adjacencies] returns, what it returns is the
    matrix of zeros of the shape of its input, and the node features
    played no part: with any other node features it returns the same.
    No distance ever reaches the output. *)
Theorem X15_learn_adjacencies_returns_zeros :
  ∀ (adj node_vec out : tensor),
    Adjacency._learn_adjacencies adj node_vec = Ok out →
    out = tf_zeros_like adj ∧ shape out = shape adj ∧
    (∀ idx, tget out idx = of_int 0) ∧
    ∀ node_vec', Adjacency._learn_adjacencies adj node_vec' = Ok out.
Proof.
  intros adj node_vec out Hout.
  pose proof (learn_adjacencies_zeros adj node_vec out Hout) as ->.
  split; [reflexivity|]. split; [reflexivity|].
  split; [intros idx; apply tget_zeros_like|].
  intros node_vec'. revert Hout. unfold Adjacency._learn_adjacencies.
  destruct (tf_iter adj) as [rows|]; simpl; [| discriminate].
  apply for_enumerate_transfer. intros ik i st st'.
  destruct (tf_iter i) as [cols|]; simpl; [| discriminate].
  apply for_enumerate_transfer. intros jk j st0 st0'.
  apply learn_entry_transfer.
Qed.

(** The transform raises at the first entry when that entry is 0 or 1
    and the node features have a first row. *)
Lemma learn_adjacencies_first_entry (adj node_vec : tensor)
    (n m k : nat) (s : list nat) (x : num) :
  shape adj = [n; m] → wf adj → 0 < n → 0 < m →
  data adj !! 0 = Some x →
  num_eqb x (of_int 0) = true ∨ num_eqb x (of_int 1) = true →
  shape node_vec = k :: s → 0 < k →
  Adjacency._learn_adjacencies adj node_vec = Raise TypeError.
Proof.
  intros Hs Hwf Hn Hm Hx Hx01 Hv Hk.
  destruct (slice_entry adj n m 0 0 Hs Hwf Hn Hm) as (x' & _ & Hx' & Hx0).
  simpl in Hx'. rewrite Hx in Hx'. injection Hx' as <-.
  unfold Adjacency._learn_adjacencies, tf_iter. rewrite Hs.
  destruct n as [|n]; [lia|]. destruct m as [|m]; [lia|].
  simpl. rewrite Hx0.
  unfold Adjacency.learn_entry, tensor_eq_const. simpl.
  destruct (num_eqb x (of_int 0)) eqn:E0; simpl; [reflexivity|].
  destruct Hx01 as [E|E]; [congruence|]. rewrite E. simpl.
  unfold tf_getitem. rewrite Hv.
  destruct (Nat.ltb_spec 0 k) as [_|?]; [| lia]. simpl.
  destruct (broadcast2_same_shape num_sub
              (slice s node_vec 0) (slice s node_vec 0) s
              eq_refl eq_refl) as (d & Ed & _).
  fold tf_sub in Ed. rewrite Ed. reflexivity.
Qed.

(** X16: on a matrix with at least one entry whose first entry [adj[0,0]]
    equals 0 or 1, and node features that have a first row, of any
    rank, [_learn_adjacencies] raises [TypeError]: the first assignment
    to [new_adj] is refused. *)
Theorem X16_learn_adjacencies_first_assignment_raises :
  ∀ (adj node_vec : tensor) (n m k : nat) (s : list nat),
    shape adj = [n; m] → wf adj → 0 < n → 0 < m →
    num_eqb (tget adj [0; 0]) (of_int 0) = true ∨
    num_eqb (tget adj [0; 0]) (of_int 1) = true →
    shape node_vec = k :: s → 0 < k →
    Adjacency._learn_adjacencies adj node_vec = Raise TypeError.
Proof.
  intros adj node_vec n m k s Hs Hwf Hn Hm H01 Hv Hk.
  destruct (slice_entry adj n m 0 0 Hs Hwf Hn Hm) as (x & _ & Hx & _).
  rewrite (tget_2d adj n m 0 0 x Hs Hx) in H01.
  apply (learn_adjacencies_first_entry adj node_vec n m k s x);
    assumption.
Qed.

Lemma wf_tf_eye (n : nat) : wf (tf_eye n).
Proof.
  unfold wf, tf_eye. simpl.
  rewrite (flat_map_constant_length (c := n)).
  - rewrite length_seq. lia.
  - intros i _. rewrite length_map, length_seq. reflexivity.
Qed.

(** X17: the operators that [GraphOperator.call] returns for a graph of
    at least two nodes cannot go through [Adjacency.call]: the first of
    them is the identity, whose entry [(0,0)] is 1, and, 1 being equal
    to itself, the distance transform raises [TypeError] at that entry,
    whatever the layer and the node features of that many rows. *)
Theorem X17_operators_through_adjacency_raise :
  ∀ (op self : nat) (adj node_vec : tensor) (w0 w : world) (n f : nat)
    (ops : list tensor),
    shape adj = [1; n; n] → 2 ≤ n →
    shape node_vec = [n; f] →
    num_eqb (of_int 1) (of_int 1) = true →
    fst (GraphOperator.call op adj w0) = Ok ops →
    fst (Adjacency.call self (ops ++ [node_vec]) w) = Raise TypeError.
Proof.
  intros op self adj node_vec w0 w n f ops Hs Hn Hv H11 Hops.
  destruct (GraphOperator_call_square op adj w0 n Hs) as (_ & _ & Hc);
    [lia|].
  rewrite Hc in Hops. injection Hops as <-. simpl app.
  rewrite Adjacency_call_three.
  set (w' := if is_ok _ then w else printed_error_87 w).
  unfold Adjacency.forward.
  change (py_index [tf_eye n; ?a; ?b] 0) with (Ok (tf_eye n)).
  change (py_index [tf_eye n; ?a; ?b] 1) with (Ok a).
  change (py_index [tf_eye n; ?a; ?b] 2) with (Ok b).
  do 3 (rewrite bind_lift; cbv beta iota). cbv zeta.
  rewrite bind_lift.
  assert (Hsq : tf_squeeze (tf_eye n) = tf_eye n).
  { apply tf_squeeze_no_ones. simpl. repeat constructor; lia. }
  rewrite Hsq.
  assert (Hd : data (tf_eye n) !! 0 = Some (of_int 1)).
  { unfold tf_eye. cbn [data].
    apply (flat_map_flat_lookup
             (λ i j, if i =? j then of_int 1 else of_int 0) n n 0 0); lia. }
  assert (Hnv : ∃ s, shape (tf_squeeze node_vec) = n :: s).
  { unfold tf_squeeze. simpl. rewrite Hv.
    rewrite filter_cons_True by lia. eauto. }
  destruct Hnv as [s Hnv].
  rewrite (learn_adjacencies_first_entry (tf_eye n) (tf_squeeze node_vec)
             n n n s (of_int 1) eq_refl (wf_tf_eye n));
    [reflexivity | lia | lia | exact Hd | by right | exact Hnv | lia].
Qed.

(** X18: [compute_output_shape] of an [Adjacency] layer drops the last
    entry of the list it is given, the shape of the node features, and
    keeps the others in order, however many they are; unlike [call], it
    accepts the empty list, for which it returns the empty list. *)
Theorem X18_adjacency_compute_output_shape :
  ∀ {A} (shapes : list A) (s : A) (self : nat) (w : world),
    Adjacency.compute_output_shape (shapes ++ [s]) = shapes ∧
    Adjacency.compute_output_shape (@nil A) = [] ∧
    fst (Adjacency.call self [] w) = Raise IndexError.
Proof.
  intros A shapes s self w. split; [apply py_init_snoc|].
  split; reflexivity.
Qed.

End AdjacencyMore.

(** ** The further properties at concrete inputs *)

Section MoreInstances.
Local Existing Instance Z_numeric.

Lemma const_init_shape (c : Z) (name : string) (s : list nat) :
  shape (const_init c name s) = s.
Proof. reflexivity. Defined.

(** C3 at the path on three nodes, node features with negative
    components and the weight [w1] filled with -1: the output is pinned,
    the ReLU has set the negative sums of the first and the last node to
    0, and the entry 8 of the second node is the sum -2 + 4 + 6 of its
    three products. *)
Lemma C3_gnn_call_witness :
  shape signed_features = [3; 2] ∧
  Forall (λ a, shape a = [3; 3]) path3_ops ∧
  ∃ r : tensor,
    GNN.call 2 (signed_features :: path3_ops) signed_gnn_world
      = (Ok r, signed_gnn_world) ∧
    r = ztensor [3; 2] [0; 0;  8; 8;  0; 0]%Z ∧
    tget r [0; 0] = Z.max 0 ((-1 + -3) + -4)%Z ∧
    tget r [1; 1] = Z.max 0 ((-2 + 4) + 6)%Z.
Proof.
  split; [reflexivity|]. split; [repeat constructor|].
  destruct (C3_gnn_call 2 signed_features
              (ztensor [3; 3] [1; 0; 0;  0; 1; 0;  0; 0; 1]%Z)
              (ztensor [3; 3] [1; 0; 1;  0; 2; 0;  1; 0; 1]%Z)
              (ztensor [3; 3] [0; 2; 0;  2; 0; 2;  0; 2; 0]%Z)
              (signed_init "w0" [2; 2]) (signed_init "w1" [2; 2])
              (signed_init "w2" [2; 2]) signed_gnn_world 3 2)
    as (p1 & p2 & p3 & s & out & _ & _ & _ & _ & _ & Hcall & _ & He);
    try reflexivity.
  exists (tf_relu out). split; [exact Hcall|].
  assert (Hv : GNN.call 2 (signed_features :: path3_ops) signed_gnn_world
               = (Ok (ztensor [3; 2] [0; 0;  8; 8;  0; 0]%Z),
                  signed_gnn_world)) by reflexivity.
  split; [| split].
  - change (signed_features :: path3_ops)
      with [signed_features;
            ztensor [3; 3] [1; 0; 0;  0; 1; 0;  0; 0; 1]%Z;
            ztensor [3; 3] [1; 0; 1;  0; 2; 0;  1; 0; 1]%Z;
            ztensor [3; 3] [0; 2; 0;  2; 0; 2;  0; 2; 0]%Z] in Hv.
    congruence.
  - rewrite (He 0 0) by lia. reflexivity.
  - rewrite (He 1 1) by lia. reflexivity.
Defined.

(** X1 at the path on three nodes. *)
Lemma X1_operators_entrywise_witness :
  shape path3 = [1; 3; 3] ∧ 3 ≠ 1 ∧
  ∃ A0 A1 A2 : tensor,
    GraphOperator.call 0 path3 empty_world = (Ok [A0; A1; A2], empty_world) ∧
    tget A1 [1; 1]
      = reduce_sum
          (map (λ k, num_mul (tget path3 [0; 1; k]) (tget path3 [0; k; 1]))
               (seq 0 3)).
Proof.
  split; [reflexivity|]. split; [lia|].
  destruct (X1_operators_entrywise 0 path3 empty_world 3 eq_refl)
    as (A0 & A1 & A2 & Hc & _ & _ & _ & He); [lia|].
  exists A0, A1, A2. split; [exact Hc|].
  destruct (He 1 1) as (_ & H1 & _); [lia | lia | exact H1].
Defined.

(** X2 at a plain 3×4 matrix. *)
Lemma X2_rank_below_3_raises_witness :
  let adj := ztensor [3; 4] (replicate 12 1%Z) in
  length (shape adj) < 3 ∧
  GraphOperator.call 0 adj empty_world = (Raise IndexError, empty_world).
Proof.
  split; [simpl; lia|].
  apply (X2_rank_below_3_raises 0 _ empty_world). simpl; lia.
Defined.

(** X3 at a batch of two 2×2 matrices. *)
Lemma X3_batch_identity_has_batch_size_witness :
  let adj := ztensor [2; 2; 2] [0; 1; 1; 0;  1; 1; 1; 1]%Z in
  shape adj = [2; 2; 2] ∧ 2 ≠ 1 ∧
  ∃ A1 A2 : tensor,
    GraphOperator.call 0 adj empty_world
      = (Ok [tf_eye 2; A1; A2], empty_world) ∧
    shape A1 = [2; 2; 2].
Proof.
  intros adj. split; [reflexivity|]. split; [lia|].
  destruct (X3_batch_identity_has_batch_size 0 adj empty_world 2 2 eq_refl)
    as (A1 & A2 & Hc & _ & S1 & _); [lia | lia |].
  exists A1, A2. split; assumption.
Defined.

(** X4 at the path on three nodes. *)
Lemma X4_compute_output_shape_agrees_witness :
  shape path3 = [1; 3; 3] ∧ 3 ≠ 1 ∧
  ∃ ops : list tensor,
    GraphOperator.call 0 path3 empty_world = (Ok ops, empty_world) ∧
    map shape ops = [[3; 3]; [3; 3]; [3; 3]].
Proof.
  split; [reflexivity|]. split; [lia|].
  destruct (X4_compute_output_shape_agrees 0 path3 empty_world 3 eq_refl)
    as (ops & Hc & Hm & _); [lia|].
  exists ops. split; [exact Hc | exact Hm].
Defined.

(** X7 at [max_nodes = 2]: the weights are 4×4. *)
Lemma X7_adjacency_built_weights_witness :
  (∀ name s, shape (const_init 1 name s) = s) ∧
  ∃ t, attr (adjacency_world 2) 1 "w1_2" = Some (VTensor t) ∧
       shape t = [4; 4].
Proof.
  split; [exact (const_init_shape 1)|].
  destruct (X7_adjacency_built_weights (const_init 1) 1 50 2 empty_world
              (const_init_shape 1)) as (_ & Hw & _).
  apply (Hw "w1_2"). unfold Adjacency.weight_names.
  do 3 right. left.
Defined.

(** X8 at two 2×3 adjacencies and one more, features 3×2 and the 2×2
    weights of the layer built for 2 features. *)
Lemma X8_gnn_call_entrywise_witness :
  let A := ztensor [2; 3] [1; 0; 2;  0; 1; 1]%Z in
  shape A = [2; 3] ∧ shape path3_features = [3; 2] ∧
  ∃ out : tensor,
    GNN.call 2 [path3_features; A; A; A] (gnn_world 2)
      = (Ok out, gnn_world 2) ∧
    shape out = [2; 2].
Proof.
  intros A. split; [reflexivity|]. split; [reflexivity|].
  destruct (X8_gnn_call_entrywise 2 path3_features A A A
              (const_init 1 "w0" [2; 2]) (const_init 1 "w1" [2; 2])
              (const_init 1 "w2" [2; 2]) (gnn_world 2) 2 3 2 2)
    as (out & Hc & Hs & _); try reflexivity.
  exists out. split; assumption.
Defined.

(** X9 at a list of one input. *)
Lemma X9_gnn_call_wrong_count_witness :
  length [path3_features] ≠ 4 ∧
  GNN.call 2 [path3_features] (gnn_world 2)
    = (Raise ValueError, gnn_world 2).
Proof.
  split; [simpl; lia|].
  apply (X9_gnn_call_wrong_count 2 [path3_features] (gnn_world 2)).
  simpl; lia.
Defined.

(** X10 at a 3×3 adjacency and features of two rows. *)
Lemma X10_gnn_call_inner_mismatch_witness :
  let X := ztensor [2; 2] [1; 2; 3; 4]%Z in
  3 ≠ 2 ∧
  GNN.call 2 (X :: path3_ops) (gnn_world 2)
    = (Raise InvalidArgumentError, gnn_world 2).
Proof.
  intros X. split; [lia|].
  apply (X10_gnn_call_inner_mismatch 2 X _ _ _ (gnn_world 2) 3 3 2 2);
    [reflexivity | reflexivity | lia].
Defined.

(** X11 at a layer that was constructed and not built. *)
Lemma X11_gnn_call_unbuilt_witness :
  let w := snd (GNN.__init__ 2 2 50 empty_world) in
  attr w 2 "w0" = None ∧
  GNN.call 2 (path3_features :: path3_ops) w = (Raise AttributeError, w).
Proof.
  intros w. split; [reflexivity|].
  apply (X11_gnn_call_unbuilt 2 path3_features _ _ _ w 3 3 2);
    reflexivity.
Defined.

(** X12 at the path on three nodes and a layer for 2 features. *)
Lemma X12_gnn_built_then_call_witness :
  (0 ≤ 2)%Z ∧
  ∃ out : tensor,
    GNN.call 2 (path3_features :: path3_ops) (gnn_world 2)
      = (Ok out, gnn_world 2) ∧
    shape out = [3; 2].
Proof.
  split; [lia|].
  destruct (X12_gnn_built_then_call (const_init 1) 2 2 50 empty_world
              path3_features
              (ztensor [3; 3] [1; 0; 0;  0; 1; 0;  0; 0; 1]%Z)
              (ztensor [3; 3] [1; 0; 1;  0; 2; 0;  1; 0; 1]%Z)
              (ztensor [3; 3] [0; 2; 0;  2; 0; 2;  0; 2; 0]%Z)
              3 (const_init_shape 1))
    as (out & Hc & Hs & _); try reflexivity; try lia.
  exists out. split; [exact Hc | exact Hs].
Defined.

(** X14 at the layer built for 2 nodes and the operators of the path. *)
Lemma X14_adjacency_call_prints_once_witness :
  attr (adjacency_world 2) 1 "w0" = None ∧
  stdout (snd (Adjacency.call 1 (path3_ops ++ [path3_features])
                 (adjacency_world 2)))
    = ["Error 87 layer"].
Proof.
  split; [reflexivity|].
  change (path3_ops ++ [path3_features])
    with [ztensor [3; 3] [1; 0; 0;  0; 1; 0;  0; 0; 1]%Z;
          ztensor [3; 3] [1; 0; 1;  0; 2; 0;  1; 0; 1]%Z;
          ztensor [3; 3] [0; 2; 0;  2; 0; 2;  0; 2; 0]%Z;
          path3_features].
  rewrite (X14_adjacency_call_prints_once 1 _ _ _ _ (adjacency_world 2)
             eq_refl).
  reflexivity.
Defined.

(** X15 at the matrix [[2,2],[2,2]]. *)
Lemma X15_learn_adjacencies_returns_zeros_witness :
  let adj := ztensor [2; 2] [2; 2; 2; 2]%Z in
  let zeros := ztensor [2; 2] [0; 0; 0; 0]%Z in
  Adjacency._learn_adjacencies adj (ztensor [2; 2] [0; 0; 3; 4]%Z) = Ok zeros ∧
  Adjacency._learn_adjacencies adj (ztensor [1] [7]%Z) = Ok zeros.
Proof.
  intros adj zeros. split; [reflexivity|].
  apply (X15_learn_adjacencies_returns_zeros adj
           (ztensor [2; 2] [0; 0; 3; 4]%Z) zeros eq_refl).
Defined.

(** X16 at the adjacency [[0,1],[1,0]] with the features
    [[0,0],[3,4]]. *)
Lemma X16_learn_adjacencies_first_assignment_raises_witness :
  let adj := ztensor [2; 2] [0; 1; 1; 0]%Z in
  let node_vec := ztensor [2; 2] [0; 0; 3; 4]%Z in
  wf adj ∧ tget adj [0; 0] = 0%Z ∧
  Adjacency._learn_adjacencies adj node_vec = Raise TypeError.
Proof.
  intros adj node_vec. split; [reflexivity|]. split; [reflexivity|].
  apply (X16_learn_adjacencies_first_assignment_raises adj node_vec
           2 2 2 [2]); try reflexivity; try lia.
  by left.
Defined.

(** X17 at the path on three nodes. *)
Lemma X17_operators_through_adjacency_raise_witness :
  shape path3 = [1; 3; 3] ∧ 2 ≤ 3 ∧
  fst (GraphOperator.call 0 path3 empty_world) = Ok path3_ops ∧
  fst (Adjacency.call 1 (path3_ops ++ [path3_features]) (adjacency_world 3))
    = Raise TypeError.
Proof.
  split; [reflexivity|]. split; [lia|]. split; [reflexivity|].
  apply (X17_operators_through_adjacency_raise 0 1 path3 path3_features
           empty_world (adjacency_world 3) 3 2 path3_ops);
    try reflexivity; lia.
Defined.

End MoreInstances.
